(** * Checkpoint resume in [luke/cli.py]

    A shallow embedding of [_resume_training] and of the two click commands
    that call it ([resume_training], [resume_e2e_training]), together with
    the Python builtins the function relies on: [str.replace],
    [str.startswith], [in], [sorted], [int], the ['%07d'] format,
    [os.path.join], [os.listdir], [os.path.exists] and [joblib.load].

    Strings are byte strings; Python compares strings by code point, which
    on UTF-8 encoded names is the byte-wise order used here. *)

From Stdlib Require Import ZArith String Ascii List Bool Lia Sorted.
From stdpp Require Import gmap strings list fin_maps.

Set Warnings "-register-all".
Local Open Scope string_scope.
Local Open Scope Z_scope.

(** ** Python values, exceptions and results *)

(** The values that occur in run arguments, in a checkpoint record and in a
    decoded JSON blob.  A float is carried as its binary64 bit pattern; the
    code never computes with it. *)
Inductive pyval :=
  | PNone
  | PBool (b : bool)
  | PInt (z : Z)
  | PFloat (bits : Z)
  | PStr (s : string)
  | PList (l : list pyval)
  | PDict (d : gmap string pyval).

(** The exceptions the function can raise before it reaches the training
    function. *)
Inductive exn :=
  | FileNotFoundError (filename : string)
  | NotADirectoryError (filename : string)
  | IsADirectoryError (filename : string)
  | UnpicklingError (filename : string)
  | IndexError
  | ValueError (literal : string)
  | KeyError (key : string)
  | TypeError
  | AttributeError.

Inductive result (A : Type) :=
  | Ok (a : A)
  | Raise (e : exn).
Arguments Ok {A} a.
Arguments Raise {A} e.

#[global] Instance result_ret : MRet result := fun _ a => Ok a.
#[global] Instance result_bind : MBind result := fun _ _ f m =>
  match m with
  | Ok a => f a
  | Raise e => Raise e
  end.

(** [value is None] *)
Definition is_None (v : pyval) : bool :=
  match v with
  | PNone => true
  | _ => false
  end.

(** [obj[key]] for a string key: only a dict accepts it. *)
Definition getitem (obj : pyval) (key : string) : result pyval :=
  match obj with
  | PDict d =>
      match d !! key with
      | Some v => Ok v
      | None => Raise (KeyError key)
      end
  | _ => Raise TypeError
  end.

(** [obj[key] = value] for a string key, returning the updated object. *)
Definition setitem (obj : pyval) (key : string) (value : pyval) : result pyval :=
  match obj with
  | PDict d => Ok (PDict (<[key := value]> d))
  | _ => Raise TypeError
  end.

(** [obj.get(key, default)] *)
Definition dict_get (obj : pyval) (key : string) (default : pyval) : result pyval :=
  match obj with
  | PDict d =>
      match d !! key with
      | Some v => Ok v
      | None => Ok default
      end
  | _ => Raise AttributeError
  end.

(** [lst[-1]] *)
Definition last_item {A : Type} (l : list A) : result A :=
  match last l with
  | Some x => Ok x
  | None => Raise IndexError
  end.

(** ** String builtins *)

(** [s.startswith(p)] *)
Definition startswith (s p : string) : bool := String.prefix p s.

(** [sub in s] *)
Fixpoint contains (sub s : string) : bool :=
  String.prefix sub s ||
  match s with
  | "" => false
  | String _ s' => contains sub s'
  end.

(** [s.replace(old, new)] for a non-empty [old]: scan from the left; on a
    match emit [new] and skip the matched characters ([skip] counts the
    characters of the current match still to be dropped). *)
Fixpoint replace_from (old new : string) (skip : nat) (s : string) : string :=
  match s with
  | "" => ""
  | String c s' =>
      match skip with
      | S k => replace_from old new k s'
      | O =>
          if String.prefix old s
          then new +:+ replace_from old new (String.length old - 1)%nat s'
          else String c (replace_from old new 0 s')
      end
  end.

(** [s.replace('', new)]: [new] around every character. *)
Fixpoint weave (new s : string) : string :=
  match s with
  | "" => ""
  | String c s' => String c (new +:+ weave new s')
  end.

Definition replace (s old new : string) : string :=
  match old with
  | "" => new +:+ weave new s
  | _ => replace_from old new 0 s
  end.

(** The decimal digit [d] (0..9) as a character. *)
Definition digit_char (d : Z) : ascii := ascii_of_N (Z.to_N (48 + d)).

(** The [k] low-order decimal digits of [n], most significant first. *)
Fixpoint dec_digits (k : nat) (n : Z) : string :=
  match k with
  | O => ""
  | S k' => String (digit_char ((n / 10 ^ Z.of_nat k') mod 10)) (dec_digits k' n)
  end.

Fixpoint num_digits_fuel (fuel : nat) (n : Z) : nat :=
  match fuel with
  | O => 1
  | S f => if n <? 10 then 1%nat else S (num_digits_fuel f (n / 10))
  end.

(** Number of decimal digits of [n >= 0] (one digit for 0). *)
Definition num_digits (n : Z) : nat := num_digits_fuel (Z.to_nat (Z.log2 n)) n.

(** ['%07d' % n]: at least seven characters, zero-padded after the sign. *)
Definition format_07d (n : Z) : string :=
  if n <? 0
  then String "-" (dec_digits (Nat.max 6 (num_digits (- n))) (- n))
  else dec_digits (Nat.max 7 (num_digits n)) n.

(** Whitespace removed by [int] around its literal, and by [str.rstrip]
    at the end of a line: the ASCII part of it. *)
Definition is_space (c : ascii) : bool :=
  let n := N_of_ascii c in
  (((9 <=? n) && (n <=? 13)) || ((28 <=? n) && (n <=? 32)))%N.

Fixpoint lstrip (s : string) : string :=
  match s with
  | "" => ""
  | String c s' => if is_space c then lstrip s' else s
  end.

Fixpoint rstrip (s : string) : string :=
  match s with
  | "" => ""
  | String c s' =>
      match rstrip s' with
      | "" => if is_space c then "" else String c ""
      | r => String c r
      end
  end.

Definition digit_val (c : ascii) : option Z :=
  let n := N_of_ascii c in
  if ((48 <=? n) && (n <=? 57))%N then Some (Z.of_N n - 48) else None.

(** The digits of a decimal literal; a single underscore may separate two
    digits.  [after_digit] tells whether the previous character was a
    digit. *)
Fixpoint parse_digits (acc : Z) (after_digit : bool) (s : string) : option Z :=
  match s with
  | "" => if after_digit then Some acc else None
  | String c s' =>
      if Ascii.eqb c "_"
      then (if after_digit then parse_digits acc false s' else None)
      else
        match digit_val c with
        | Some d => parse_digits (10 * acc + d) true s'
        | None => None
        end
  end.

(** [int(s)] in base 10, for a literal of ASCII characters. *)
Definition py_int (s : string) : result Z :=
  let lit := rstrip (lstrip s) in
  let parsed :=
    match lit with
    | String "+" r => parse_digits 0 false r
    | String "-" r => Z.opp <$> parse_digits 0 false r
    | _ => parse_digits 0 false lit
    end in
  match parsed with
  | Some z => Ok z
  | None => Raise (ValueError s)
  end.

(** [sorted] on a list of strings (insertion sort on the code-point order). *)
Fixpoint insert_sorted (x : string) (l : list string) : list string :=
  match l with
  | [] => [x]
  | y :: l' => if String.leb x y then x :: l else y :: insert_sorted x l'
  end.

Definition sorted (l : list string) : list string := foldr insert_sorted [] l.

(** [os.path.join(a, b)] (POSIX). *)
Definition ends_with_sep (a : string) : bool :=
  match String.get (String.length a - 1)%nat a with
  | Some c => Ascii.eqb c "/"
  | None => false
  end.

Definition os_path_join (a b : string) : string :=
  if String.prefix "/" b then b
  else if (String.length a =? 0)%nat || ends_with_sep a then a +:+ b
  else a +:+ "/" +:+ b.

(** ** Predicates on strings and names used in the statements *)

(** Characters of a string, as a predicate. *)
Fixpoint str_all (P : ascii -> Prop) (s : string) : Prop :=
  match s with
  | "" => True
  | String c s' => P c /\ str_all P s'
  end.

(** A decimal digit character. *)
Definition is_digit (c : ascii) : Prop := exists d, 0 <= d < 10 /\ c = digit_char d.

(** The characters ['%07d'] can produce. *)
Definition is_digit_or_minus (c : ascii) : Prop := is_digit c \/ c = "-"%char.

(** ** The file system, as [os] and [joblib] expose it

    Every existing path is a key, spelled the way the program passes it to
    the operating system (relative to the working directory unless it starts
    with a slash).  A regular file holds the object [joblib.load] returns
    for it, or nothing when it is not a joblib pickle.  Permissions are not
    modelled, and a path under a regular file is answered like a missing
    one: what is stated about missing paths is stated for paths with no
    regular file above them ([path_clear]). *)
Inductive node :=
  | Dir
  | File (content : option pyval).

Abbreviation filesystem := (gmap string node).

(** [os.path.exists(path)] *)
Definition os_path_exists (fs : filesystem) (path : string) : bool :=
  match fs !! path with
  | Some _ => true
  | None => false
  end.

(** [joblib.load(filename)]; whatever a file that is no pickle makes it
    raise is reported as [UnpicklingError]. *)
Definition joblib_load (fs : filesystem) (filename : string) : result pyval :=
  match fs !! filename with
  | None => Raise (FileNotFoundError filename)
  | Some Dir => Raise (IsADirectoryError filename)
  | Some (File None) => Raise (UnpicklingError filename)
  | Some (File (Some obj)) => Ok obj
  end.

Fixpoint string_drop (k : nat) (s : string) : string :=
  match k, s with
  | S k', String _ s' => string_drop k' s'
  | _, _ => s
  end.

(** The name under which [path] is an entry of directory [d], if it is
    one. *)
Definition entry_name (d path : string) : option string :=
  let pre := if (String.length d =? 0)%nat || ends_with_sep d then d else d +:+ "/" in
  if String.prefix pre path
  then
    let name := string_drop (String.length pre) path in
    if (String.length name =? 0)%nat || contains "/" name then None else Some name
  else None.

(** [os.listdir(path)]; the order of the entries is arbitrary. *)
Definition os_listdir (fs : filesystem) (path : string) : result (list string) :=
  match fs !! path with
  | None => Raise (FileNotFoundError path)
  | Some (File _) => Raise (NotADirectoryError path)
  | Some Dir => Ok (omap (entry_name path) (fst <$> map_to_list fs))
  end.

(** ** [_resume_training] *)

(** Line 232: [[f for f in names if f.startswith('data_') and 'step' in f]]. *)
Definition data_files (names : list string) : list string :=
  List.filter (fun f => startswith f "data_" && contains "step" f) names.

(** The name the code gives the data record of an explicit step. *)
Definition data_file_name (global_step : Z) : string :=
  "data_step" +:+ format_07d global_step +:+ ".pkl".

(** The name of the [kind] artifact of a step: [kind_step<N>.bin]. *)
Definition artifact_name (kind : string) (n : Z) : string :=
  kind +:+ "_step" +:+ format_07d n +:+ ".bin".

Section Resume.
Context {R : Type}.
(** [train.run_training] or [train.run_e2e_training], called as
    [train_func( **args )]. *)
Variable train_func : gmap string pyval -> result R.
Variable fs : filesystem.

(** Lines 227-228.  [json_data] is the blob already decoded by
    [json.loads], taken to be a JSON object. *)
Definition update_kwargs (json_data : option (gmap string pyval))
    (kwargs : gmap string pyval) : gmap string pyval :=
  match json_data with
  | Some blob => blob ∪ kwargs
  | None => kwargs
  end.

(** Lines 230-235: the data file and the step it stands for. *)
Definition resolve_data_file (output_dir : string) (global_step : option Z)
    : result (string * Z) :=
  match global_step with
  | None =>
      names ← os_listdir fs output_dir;
      data_file ← last_item (sorted (data_files names));
      global_step ← py_int (replace (replace data_file "data_step" "") ".pkl" "");
      Ok (data_file, global_step)
  | Some n => Ok (data_file_name n, n)
  end.

(** Lines 237-250: the stored arguments with the record's progress
    counters and the artifact paths written into them. *)
Definition restore_args (output_dir data_file : string) : result pyval :=
  data ← joblib_load fs (os_path_join output_dir data_file);
  args ← getitem data "args";
  v ← getitem data "global_step";
  args ← setitem args "global_step" v;
  v ← dict_get data "epoch" (PInt 0);
  args ← setitem args "epoch" v;
  v ← getitem data "page_chunks";
  args ← setitem args "page_chunks" v;
  let model_file := replace (replace data_file ".pkl" ".bin") "data" "model" in
  args ← setitem args "model_file" (PStr (os_path_join output_dir model_file));
  let optimizer_file := replace (replace data_file ".pkl" ".bin") "data" "optimizer" in
  args ← setitem args "optimizer_file" (PStr (os_path_join output_dir optimizer_file));
  let sparse_optimizer_file :=
    replace (replace data_file ".pkl" ".bin") "data" "sparse_optimizer" in
  if os_path_exists fs sparse_optimizer_file
  then setitem args "sparse_optimizer_file"
         (PStr (os_path_join output_dir sparse_optimizer_file))
  else Ok args.

(** Lines 252-254: the loop over [kwargs.items()].  The keys of a dict
    are distinct, so the order of the iteration does not show in the
    result (see [apply_overrides_dict]). *)
Definition apply_overrides (kwargs : gmap string pyval) (args : pyval) : result pyval :=
  map_fold (fun key value acc =>
              a ← acc;
              if is_None value then Ok a else setitem a key value)
           (Ok args) kwargs.

(** Line 256: [train_func( **args )]. *)
Definition call_train_func (args : pyval) : result R :=
  match args with
  | PDict d => train_func d
  | _ => Raise TypeError
  end.

Definition _resume_training (json_data : option (gmap string pyval))
    (output_dir : string) (global_step : option Z) (kwargs : gmap string pyval)
    : result R :=
  let kwargs := update_kwargs json_data kwargs in
  '(data_file, global_step) ← resolve_data_file output_dir global_step;
  args ← restore_args output_dir data_file;
  args ← apply_overrides kwargs args;
  call_train_func args.
End Resume.

(** ** The click commands (lines 195-223) *)

(** What click hands to [resume_training] and [resume_e2e_training]: the
    [output_dir] argument and the options of [resume_training_options], each
    [None] unless given on the command line, and the [--json-data] blob. *)
Record resume_options := {
  output_dir : string;
  global_step : option Z;
  batch_size : option Z;
  gradient_accumulation_steps : option Z;
  learning_rate : option Z;  (* a float, as its binary64 bit pattern *)
  lr_decay : option bool;
  num_train_steps : option Z;
  save_every : option Z;
  json_data : option (gmap string pyval)
}.

Definition option_value {A : Type} (inj : A -> pyval) (o : option A) : pyval :=
  match o with
  | Some a => inj a
  | None => PNone
  end.

(** The [**kwargs] left once [json_data], [output_dir] and [global_step]
    are bound to named parameters. *)
Definition resume_kwargs (o : resume_options) : gmap string pyval :=
  <["batch_size" := option_value PInt (batch_size o)]>
  (<["gradient_accumulation_steps" := option_value PInt (gradient_accumulation_steps o)]>
  (<["learning_rate" := option_value PFloat (learning_rate o)]>
  (<["lr_decay" := option_value PBool (lr_decay o)]>
  (<["num_train_steps" := option_value PInt (num_train_steps o)]>
  (<["save_every" := option_value PInt (save_every o)]> ∅))))).

Section Commands.
Context {R : Type}.
(** [luke.train.run_training] and [luke.train.run_e2e_training]. *)
Variables run_training run_e2e_training : gmap string pyval -> result R.
Variable fs : filesystem.

Definition resume_training (o : resume_options) : result R :=
  _resume_training run_training fs (json_data o) (output_dir o) (global_step o)
    (resume_kwargs o).

Definition resume_e2e_training (o : resume_options) : result R :=
  _resume_training run_e2e_training fs (json_data o) (output_dir o) (global_step o)
    (resume_kwargs o).
End Commands.

(** ** Closed forms of the phases *)

(** The epoch the code takes from a record: [data.get('epoch', 0)]. *)
Definition record_epoch (data : gmap string pyval) : pyval :=
  match data !! "epoch" with
  | Some e => e
  | None => PInt 0
  end.

(** The arguments before the override loop, in closed form. *)
Definition restored (fs : filesystem) (output_dir data_file : string)
    (stored : gmap string pyval) (step epoch chunks : pyval) : gmap string pyval :=
  let bin := replace data_file ".pkl" ".bin" in
  let args :=
    <["optimizer_file" := PStr (os_path_join output_dir (replace bin "data" "optimizer"))]>
    (<["model_file" := PStr (os_path_join output_dir (replace bin "data" "model"))]>
    (<["page_chunks" := chunks]>
    (<["epoch" := epoch]>
    (<["global_step" := step]> stored)))) in
  if os_path_exists fs (replace bin "data" "sparse_optimizer")
  then <["sparse_optimizer_file" :=
           PStr (os_path_join output_dir (replace bin "data" "sparse_optimizer"))]> args
  else args.

(** The arguments after the override loop, in closed form: the non-null
    entries of [kwargs] laid over [args]. *)
Definition overridden (kwargs args : gmap string pyval) : gmap string pyval :=
  filter (fun kv => is_None kv.2 = false) kwargs ∪ args.

(** The keys [_resume_training] writes itself, from the record and the
    resolved data file. *)
Definition derived_keys : list string :=
  ["global_step"; "epoch"; "page_chunks"; "model_file"; "optimizer_file";
   "sparse_optimizer_file"].

(** The options of [resume_training_options] that reach [kwargs]. *)
Definition option_keys : list string :=
  ["batch_size"; "gradient_accumulation_steps"; "learning_rate"; "lr_decay";
   "num_train_steps"; "save_every"].

(** ** Sample data *)

(** The record saved at a step: the stored run arguments and the progress
    counters. *)
Definition sample_record (step : Z) : pyval :=
  PDict (<["args" := PDict (<["batch_size" := PInt 256]>
                           (<["model_file" := PNone]> ∅))]>
        (<["global_step" := PInt step]>
        (<["epoch" := PInt 1]>
        (<["page_chunks" := PList [PInt 3; PInt 4]]> ∅)))).

(** A run directory holding the checkpoints of steps 7, 70 and 700. *)
Definition fs_steps : filesystem :=
  list_to_map
    [("out", Dir);
     ("out/data_step0000007.pkl", File (Some (sample_record 7)));
     ("out/model_step0000007.bin", File None);
     ("out/optimizer_step0000007.bin", File None);
     ("out/data_step0000070.pkl", File (Some (sample_record 70)));
     ("out/model_step0000070.bin", File None);
     ("out/optimizer_step0000070.bin", File None);
     ("out/data_step0000700.pkl", File (Some (sample_record 700)));
     ("out/model_step0000700.bin", File None);
     ("out/optimizer_step0000700.bin", File None)].

(** A run directory whose step-7 checkpoint has a sparse-optimizer file;
    the working directory holds no file of that name. *)
Definition fs_sparse : filesystem :=
  list_to_map
    [("out", Dir);
     ("out/data_step0000007.pkl", File (Some (sample_record 7)));
     ("out/model_step0000007.bin", File None);
     ("out/optimizer_step0000007.bin", File None);
     ("out/sparse_optimizer_step0000007.bin", File None)].

(** A run directory with the data record of step 7 and nothing else. *)
Definition fs_record_only : filesystem :=
  list_to_map
    [("out", Dir);
     ("out/data_step0000007.pkl", File (Some (sample_record 7)))].


(** A run directory with the checkpoints of steps 9999999 and 10000000. *)
Definition fs_wide : filesystem :=
  list_to_map
    [("out", Dir);
     ("out/data_step9999999.pkl", File (Some (sample_record 9999999)));
     ("out/data_step10000000.pkl", File (Some (sample_record 10000000)))].

(** A record without an epoch, as older checkpoints have it. *)
Definition record_without_epoch : pyval :=
  PDict (<["args" := PDict (<["batch_size" := PInt 256]> ∅)]>
        (<["global_step" := PInt 7]>
        (<["page_chunks" := PList []]> ∅))).

Definition fs_old : filesystem :=
  list_to_map
    [("out", Dir);
     ("out/data_step0000007.pkl", File (Some record_without_epoch))].

(** A record that lost its page chunks. *)
Definition record_without_chunks : pyval :=
  PDict (<["args" := PDict (<["batch_size" := PInt 256]> ∅)]>
        (<["global_step" := PInt 7]>
        (<["epoch" := PInt 1]> ∅))).

Definition fs_broken : filesystem :=
  list_to_map
    [("out", Dir);
     ("out/data_step0000007.pkl", File (Some record_without_chunks))].

(** Options of [resume-training out --global-step 7 --batch-size 128]. *)
Definition sample_options : resume_options :=
  {| output_dir := "out"; global_step := Some 7; batch_size := Some 128;
     gradient_accumulation_steps := None; learning_rate := None; lr_decay := None;
     num_train_steps := None; save_every := None; json_data := None |}.

(** ** More sample data for resuming *)

(** A run directory where a leftover temporary file sits beside the
    checkpoint of step 700. *)
Definition fs_stray : filesystem :=
  list_to_map
    [("out", Dir);
     ("out/data_step0000700.pkl", File (Some (sample_record 700)));
     ("out/data_step0000700.pkl.tmp", File None);
     ("out/model_step0000700.bin", File None);
     ("out/optimizer_step0000700.bin", File None)].

(** A run directory whose data file of step 7 holds a list. *)
Definition fs_illtyped : filesystem :=
  list_to_map
    [("out", Dir);
     ("out/data_step0000007.pkl", File (Some (PList [PInt 7])))].

(** The sparse-optimizer file of step 7 lies in the working directory and
    not in the run directory. *)
Definition fs_sparse_cwd : filesystem :=
  list_to_map
    [("out", Dir);
     ("out/data_step0000007.pkl", File (Some (sample_record 7)));
     ("sparse_optimizer_step0000007.bin", File None)].

(** Options of [resume-training out]. *)
Definition no_options : resume_options :=
  {| output_dir := "out"; global_step := None; batch_size := None;
     gradient_accumulation_steps := None; learning_rate := None; lr_decay := None;
     num_train_steps := None; save_every := None; json_data := None |}.

(** Options of [resume-training out --global-step 7 --batch-size 128 -j
    '{"batch_size": null, "model_file": "elsewhere/model.bin"}']. *)
Definition json_options : resume_options :=
  {| output_dir := "out"; global_step := Some 7; batch_size := Some 128;
     gradient_accumulation_steps := None; learning_rate := None; lr_decay := None;
     num_train_steps := None; save_every := None;
     json_data := Some (<["batch_size" := PNone]>
                        (<["model_file" := PStr "elsewhere/model.bin"]> ∅)) |}.

(** ** [_run_training] (lines 179-192) *)

(** A call that may change the file system before it returns or raises:
    it is given the file system and gives back the file system it leaves. *)
Definition io (A : Type) : Type := filesystem -> filesystem * result A.

Definition io_lift {A : Type} (r : result A) : io A := fun fs => (fs, r).

Definition io_bind {A B : Type} (m : io A) (f : A -> io B) : io B := fun fs =>
  match m fs with
  | (fs', Ok a) => f a fs'
  | (fs', Raise e) => (fs', Raise e)
  end.

(** [d.pop(key)]: the value and the dict without the key. *)
Definition dict_pop (d : gmap string pyval) (key : string)
    : result (pyval * gmap string pyval) :=
  match d !! key with
  | Some v => Ok (v, delete key d)
  | None => Raise (KeyError key)
  end.

(** [os.path.join(a, b)] on values: both have to be strings. *)
Definition path_join_values (a b : pyval) : result string :=
  match a, b with
  | PStr a, PStr b => Ok (os_path_join a b)
  | _, _ => Raise TypeError
  end.

Section Run.
Context {R : Type}.
(** [train.run_training] or [train.run_e2e_training], called as
    [train_func( **kwargs )]; it writes its checkpoints itself. *)
Variable train_func : gmap string pyval -> io R.
(** [os.makedirs(name, exist_ok=True)] *)
Variable os_makedirs : string -> io unit.

Definition _run_training (json_data : option (gmap string pyval))
    (kwargs : gmap string pyval) : io R :=
  let kwargs := update_kwargs json_data kwargs in
  io_bind (io_lift (dict_pop kwargs "run_name")) (fun '(run_name, kwargs) =>
  io_bind (io_lift (dict_pop kwargs "base_output_dir")) (fun '(base, kwargs) =>
  io_bind (io_lift (path_join_values base run_name)) (fun output_dir =>
  let kwargs := <["output_dir" := PStr output_dir]> kwargs in
  io_bind (os_makedirs output_dir) (fun _ =>
  io_bind (io_lift (dict_pop kwargs "base_log_dir")) (fun '(base, kwargs) =>
  io_bind (io_lift (path_join_values base run_name)) (fun log_dir =>
  let kwargs := <["log_dir" := PStr log_dir]> kwargs in
  io_bind (os_makedirs log_dir) (fun _ =>
  train_func kwargs))))))).
End Run.

(** The keys [_run_training] removes or writes. *)
Definition run_keys : list string :=
  ["run_name"; "base_output_dir"; "base_log_dir"; "output_dir"; "log_dir"].

(** ** [build_entity_vocab] (lines 97-103) *)

(** Iterating over an open text file: its lines in order, each with the
    newline that ends it (the last one may have none).  The content is the
    text as Python reads it, line ends translated to a single newline. *)
Fixpoint file_lines (content : string) : list string :=
  match content with
  | "" => []
  | String c rest =>
      if Ascii.eqb c "010"
      then String c "" :: file_lines rest
      else
        match file_lines rest with
        | [] => [String c ""]
        | line :: lines => String c line :: lines
        end
  end.

(** Line 102: [[line.rstrip() for f in white_list for line in f]], every
    file given by its content. *)
Definition white_list_entries (white_list : list string) : list string :=
  flat_map (fun f => map rstrip (file_lines f)) white_list.

Section EntityVocab.
Context {Corpus R : Type}.
(** [luke.wiki_corpus.WikiCorpus] *)
Variable WikiCorpus : string -> Corpus.
(** [EntityVocab.build_vocab(corpus, white_list=white_list, **kwargs)] *)
Variable build_vocab : Corpus -> list string -> gmap string pyval -> R.

Definition build_entity_vocab (corpus_data_file : string) (white_list : list string)
    (kwargs : gmap string pyval) : R :=
  build_vocab (WikiCorpus corpus_data_file) (white_list_entries white_list) kwargs.
End EntityVocab.

(** ** Sample data for the training and vocabulary commands *)

(** A training function that only reports the arguments it is called
    with. *)
Definition report_arguments : gmap string pyval -> io (gmap string pyval) :=
  fun kwargs fs => (fs, Ok kwargs).

(** [os.makedirs] where nothing is in the way: the directory is there
    afterwards. *)
Definition makedirs_free : string -> io unit :=
  fun name fs => (<[name := Dir]> fs, Ok tt).

(** [os.makedirs] where a regular file stands in the place of a parent
    directory. *)
Definition makedirs_blocked : string -> io unit :=
  fun name fs => (fs, Raise (NotADirectoryError name)).

(** The options [run-training] passes on, in part. *)
Definition run_options : gmap string pyval :=
  <["run_name" := PStr "job1"]>
  (<["base_output_dir" := PStr "out"]>
  (<["base_log_dir" := PStr "log"]>
  (<["batch_size" := PInt 256]>
  (<["model_file" := PNone]> ∅)))).

(** The blob [{"batch_size": null, "output_dir": "elsewhere"}]. *)
Definition run_blob : gmap string pyval :=
  <["batch_size" := PNone]> (<["output_dir" := PStr "elsewhere"]> ∅).

(** A white-list file of three lines, the second one blank. *)
Definition sample_white_list : string :=
  "Paris " +:+ String "010" "" +:+ String "010" "" +:+ " Rome" +:+ String "010" "".

(** ** Paths above a path *)

(** The proper, non-empty prefixes of [path] that end before a slash: the
    directories the operating system walks through to reach [path]. *)
Fixpoint parents (path : string) : list string :=
  match path with
  | "" => []
  | String c rest =>
      match rest with
      | String "/" _ => String c "" :: map (String c) (parents rest)
      | _ => map (String c) (parents rest)
      end
  end.

(** [path] names a regular file. *)
Definition is_regular_file (fs : filesystem) (path : string) : bool :=
  match fs !! path with
  | Some (File _) => true
  | _ => false
  end.

(** No regular file stands in the place of a directory above [path].  Where
    one does, the operating system answers "not a directory" rather than "no
    such file"; the statements about missing files and directories are made
    for clear paths. *)
Definition path_clear (fs : filesystem) (path : string) : bool :=
  forallb (fun q => negb (is_regular_file fs q)) (parents path).

(** A character of the ASCII range. *)
Definition is_ascii (c : ascii) : Prop := (N_of_ascii c < 128)%N.

(** [os.makedirs] for a name that is free or a directory already, under a
    parent that exists: the directory is there afterwards, unless a regular
    file stands in the place of a directory above it. *)
Definition makedirs_leaf : string -> io unit :=
  fun name fs =>
    if path_clear fs name
    then (<[name := Dir]> fs, Ok tt)
    else (fs, Raise (NotADirectoryError name)).

(** The working directory of a machine where [out] is a directory and [log]
    a regular file. *)
Definition fs_log_blocked : filesystem :=
  list_to_map [("out", Dir); ("log", File None)].

(** The same machine once [out/job1] is made. *)
Definition fs_log_blocked_after : filesystem := <["out/job1" := Dir]> fs_log_blocked.

(** Options that place the output under [log] as well. *)
Definition run_options_under_log : gmap string pyval :=
  <["base_output_dir" := PStr "log"]> run_options.

(** ** Checks of the builtins on sample inputs *)

Example replace_ex1 : replace "data_step0000700.pkl" ".pkl" ".bin" = "data_step0000700.bin".
Proof. reflexivity. Qed.
Example replace_ex2 : replace "aaaa" "aa" "b" = "bb".
Proof. reflexivity. Qed.
Example replace_ex3 : replace "abc" "" "X" = "XaXbXcX".
Proof. reflexivity. Qed.
Example replace_ex4 : replace "data_data.pkl" "data" "model" = "model_model.pkl".
Proof. reflexivity. Qed.
Example format_ex1 : format_07d 700 = "0000700".
Proof. reflexivity. Qed.
Example format_ex2 : format_07d (-5) = "-000005".
Proof. reflexivity. Qed.
Example format_ex3 : format_07d 12345678 = "12345678".
Proof. reflexivity. Qed.
Example format_ex4 : format_07d 0 = "0000000".
Proof. reflexivity. Qed.
Example int_ex1 : py_int "0000700" = Ok 700.
Proof. reflexivity. Qed.
Example int_ex2 : py_int " -1_000 " = Ok (-1000).
Proof. reflexivity. Qed.
Example int_ex3 : py_int "_notes.txt" = Raise (ValueError "_notes.txt").
Proof. reflexivity. Qed.
Example sorted_ex1 : sorted ["data_step0000070.pkl"; "data_step0000700.pkl"; "data_step0000007.pkl"]
  = ["data_step0000007.pkl"; "data_step0000070.pkl"; "data_step0000700.pkl"].
Proof. reflexivity. Qed.
Example join_ex1 : os_path_join "out/run" "x.bin" = "out/run/x.bin".
Proof. reflexivity. Qed.
Example join_ex2 : os_path_join "out/" "x.bin" = "out/x.bin".
Proof. reflexivity. Qed.
Example join_ex3 : os_path_join "" "x.bin" = "x.bin".
Proof. reflexivity. Qed.

Example resolve_ex1 : resolve_data_file fs_steps "out" None = Ok ("data_step0000700.pkl", 700).
Proof. reflexivity. Qed.

Example resume_ex1 :
  _resume_training Ok fs_steps None "out" None (<["batch_size" := PInt 128]> ∅) =
  Ok (<["batch_size" := PInt 128]>
     (<["global_step" := PInt 700]>
     (<["epoch" := PInt 1]>
     (<["page_chunks" := PList [PInt 3; PInt 4]]>
     (<["model_file" := PStr "out/model_step0000700.bin"]>
     (<["optimizer_file" := PStr "out/optimizer_step0000700.bin"]> ∅)))))).
Proof. reflexivity. Qed.

(** ** Facts about the string builtins *)

Lemma append_String (c : ascii) (s t : string) : String c s +:+ t = String c (s +:+ t).
Proof. reflexivity. Qed.

Lemma append_empty_l (t : string) : "" +:+ t = t.
Proof. reflexivity. Qed.

Lemma append_empty_r (s : string) : s +:+ "" = s.
Proof. induction s as [|c s IH]; [reflexivity|]. rewrite append_String. by rewrite IH. Qed.

Lemma append_assoc (s t u : string) : (s +:+ t) +:+ u = s +:+ (t +:+ u).
Proof.
  induction s as [|c s IH]; [reflexivity|].
  rewrite !append_String. by rewrite IH.
Qed.

Lemma prefix_String_eq (a : ascii) (p s : string) :
  String.prefix (String a p) (String a s) = String.prefix p s.
Proof. simpl. destruct (ascii_dec a a); [reflexivity | contradiction]. Qed.

Lemma prefix_String_ne (a c : ascii) (p s : string) :
  a <> c -> String.prefix (String a p) (String c s) = false.
Proof. intros Hne. simpl. destruct (ascii_dec a c); [contradiction | reflexivity]. Qed.

Lemma prefix_append (p s : string) : String.prefix p (p +:+ s) = true.
Proof.
  induction p as [|a p IH]; [by destruct s|].
  rewrite append_String, prefix_String_eq. exact IH.
Qed.

Lemma string_drop_append (p s : string) : string_drop (String.length p) (p +:+ s) = s.
Proof. induction p as [|a p IH]; [by destruct s | exact IH]. Qed.

Lemma str_all_append (P : ascii -> Prop) (s t : string) :
  str_all P (s +:+ t) <-> str_all P s /\ str_all P t.
Proof.
  induction s as [|c s IH].
  - rewrite append_empty_l. simpl. tauto.
  - rewrite append_String. simpl. tauto.
Qed.

Lemma str_all_impl (P Q : ascii -> Prop) (s : string) :
  (forall c, P c -> Q c) -> str_all P s -> str_all Q s.
Proof. intros HPQ. induction s as [|c s IH]; simpl; [done|]. intros [? ?]. auto. Qed.

Lemma replace_from_skip (old new : string) (k : nat) (s : string) :
  replace_from old new k s = replace_from old new 0 (string_drop k s).
Proof.
  revert k. induction s as [|c s IH]; intros k.
  - by destruct k.
  - destruct k as [|k]; [reflexivity|]. simpl. apply IH.
Qed.

(** A match at the head is replaced and scanning resumes behind it. *)
Lemma replace_from_match (a : ascii) (o new rest : string) :
  replace_from (String a o) new 0 (String a o +:+ rest) =
  new +:+ replace_from (String a o) new 0 rest.
Proof.
  rewrite append_String. cbn [replace_from].
  rewrite prefix_String_eq, prefix_append.
  rewrite replace_from_skip. cbn [String.length].
  replace (S (String.length o) - 1)%nat with (String.length o) by lia.
  by rewrite string_drop_append.
Qed.

(** Text free of the first character of [old] is copied unchanged. *)
Lemma replace_from_free (a : ascii) (o new pre rest : string) :
  str_all (fun c => c <> a) pre ->
  replace_from (String a o) new 0 (pre +:+ rest) =
  pre +:+ replace_from (String a o) new 0 rest.
Proof.
  induction pre as [|c pre IH]; intros Hfree.
  - reflexivity.
  - destruct Hfree as [Hc Hpre]. rewrite !append_String. cbn [replace_from].
    rewrite prefix_String_ne by congruence. by rewrite IH.
Qed.

Lemma replace_from_free_all (a : ascii) (o new s : string) :
  str_all (fun c => c <> a) s -> replace_from (String a o) new 0 s = s.
Proof.
  intros H. rewrite <- (append_empty_r s) at 1.
  rewrite replace_from_free by done. apply append_empty_r.
Qed.

(** ** Decimal digits *)

Lemma digit_char_cases (d : Z) :
  0 <= d < 10 ->
  In (digit_char d) ["0"; "1"; "2"; "3"; "4"; "5"; "6"; "7"; "8"; "9"]%char.
Proof.
  intros Hd.
  assert (d = 0 \/ d = 1 \/ d = 2 \/ d = 3 \/ d = 4 \/ d = 5 \/ d = 6 \/ d = 7
          \/ d = 8 \/ d = 9) as Hcases by lia.
  repeat (destruct Hcases as [-> | Hcases]; [simpl; tauto|]).
  subst d. simpl. tauto.
Qed.

(** Case analysis on a digit character. *)
Ltac digit_cases H :=
  let d := fresh "d" in let Hd := fresh "Hd" in let Hin := fresh "Hin" in
  destruct H as (d & Hd & ->);
  pose proof (digit_char_cases d Hd) as Hin; simpl in Hin;
  repeat (destruct Hin as [<- | Hin]; [clear Hd | ]); [ .. | contradiction].

Lemma digit_N_of_ascii (d : Z) :
  0 <= d < 10 -> N_of_ascii (digit_char d) = Z.to_N (48 + d).
Proof. intros Hd. unfold digit_char. apply N_ascii_embedding. lia. Qed.

Lemma digit_val_digit_char (d : Z) : 0 <= d < 10 -> digit_val (digit_char d) = Some d.
Proof.
  intros Hd. unfold digit_val. rewrite digit_N_of_ascii by done.
  replace ((48 <=? Z.to_N (48 + d)) && (Z.to_N (48 + d) <=? 57))%N with true.
  - f_equal. lia.
  - symmetry. apply andb_true_iff. split; apply N.leb_le; lia.
Qed.

Lemma digit_not_space (c : ascii) : is_digit c -> is_space c = false.
Proof. intros H. digit_cases H; reflexivity. Qed.

Lemma digit_not_underscore (c : ascii) : is_digit c -> Ascii.eqb c "_" = false.
Proof. intros H. digit_cases H; reflexivity. Qed.

Lemma digit_compare (d e : Z) :
  0 <= d < 10 -> 0 <= e < 10 ->
  Ascii.compare (digit_char d) (digit_char e) = (d ?= e).
Proof.
  intros Hd He. unfold Ascii.compare. rewrite !digit_N_of_ascii by done.
  rewrite Z2N.inj_compare by lia. apply Z.add_compare_mono_l.
Qed.

Lemma dec_digits_all (k : nat) (n : Z) : str_all is_digit (dec_digits k n).
Proof.
  induction k as [|k IH]; simpl; [done|]. split; [|exact IH].
  eexists. split; [|reflexivity]. apply Z.mod_pos_bound. lia.
Qed.

Lemma dec_digits_length (k : nat) (n : Z) : String.length (dec_digits k n) = k.
Proof. induction k as [|k IH]; simpl; [done|]. by rewrite IH. Qed.

(** Splitting off the leading digit of the [S k] low-order digits. *)
Lemma mod_pow10_S (k : nat) (n : Z) :
  n mod 10 ^ Z.of_nat (S k) =
  (n / 10 ^ Z.of_nat k) mod 10 * 10 ^ Z.of_nat k + n mod 10 ^ Z.of_nat k.
Proof.
  rewrite Nat2Z.inj_succ, Z.pow_succ_r by lia.
  rewrite (Z.mul_comm 10), Z.rem_mul_r by lia. lia.
Qed.

(** On digit strings of one width the code-point order is the numeric
    order. *)
Lemma dec_digits_compare (k : nat) (n m : Z) :
  String.compare (dec_digits k n) (dec_digits k m) =
  (n mod 10 ^ Z.of_nat k ?= m mod 10 ^ Z.of_nat k).
Proof.
  induction k as [|k IH].
  - simpl. by rewrite !Z.mod_1_r.
  - cbn [dec_digits String.compare].
    rewrite digit_compare by (apply Z.mod_pos_bound; lia).
    rewrite IH, !mod_pow10_S.
    set (p := 10 ^ Z.of_nat k).
    assert (0 < p) as Hp by (apply Z.pow_pos_nonneg; lia).
    pose proof (Z.mod_pos_bound n p Hp) as Hn.
    pose proof (Z.mod_pos_bound m p Hp) as Hm.
    set (dn := (n / p) mod 10). set (dm := (m / p) mod 10).
    destruct (Z.compare_spec dn dm) as [Heq | Hlt | Hgt].
    + rewrite Heq. symmetry. apply Z.add_compare_mono_l.
    + symmetry. apply Z.compare_lt_iff. nia.
    + symmetry. apply Z.compare_gt_iff. nia.
Qed.

Lemma num_digits_fuel_le (fuel k : nat) (n : Z) :
  (1 <= k)%nat -> n < 10 ^ Z.of_nat k -> (num_digits_fuel fuel n <= k)%nat.
Proof.
  revert k n. induction fuel as [|f IH]; intros k n Hk Hn; simpl; [done|].
  destruct (n <? 10) eqn:Hlt; [done|]. apply Z.ltb_ge in Hlt.
  destruct k as [|k]; [lia|].
  assert (1 <= k)%nat as Hk'.
  { destruct k; [|lia]. change (10 ^ Z.of_nat 1) with 10 in Hn. lia. }
  apply le_n_S, IH; [done|].
  rewrite Nat2Z.inj_succ, Z.pow_succ_r in Hn by lia.
  apply Z.div_lt_upper_bound; lia.
Qed.

(** A step below ten million is written with exactly seven digits. *)
Lemma format_07d_seven (n : Z) : 0 <= n < 10 ^ 7 -> format_07d n = dec_digits 7 n.
Proof.
  intros [Hlo Hhi]. unfold format_07d.
  destruct (n <? 0) eqn:Hneg; [apply Z.ltb_lt in Hneg; lia|].
  replace (Nat.max 7 (num_digits n)) with 7%nat; [done|].
  pose proof (num_digits_fuel_le (Z.to_nat (Z.log2 n)) 7 n) as Hle.
  unfold num_digits. lia.
Qed.

Lemma format_07d_all (n : Z) : str_all is_digit_or_minus (format_07d n).
Proof.
  unfold format_07d. destruct (n <? 0).
  - split; [by right|]. eapply str_all_impl; [|apply dec_digits_all]. by left.
  - eapply str_all_impl; [|apply dec_digits_all]. by left.
Qed.

Lemma parse_digits_dec_digits (k : nat) (n acc : Z) :
  parse_digits acc true (dec_digits k n) = Some (acc * 10 ^ Z.of_nat k + n mod 10 ^ Z.of_nat k).
Proof.
  revert acc. induction k as [|k IH]; intros acc.
  - simpl. rewrite Z.mod_1_r. f_equal. lia.
  - cbn [dec_digits parse_digits].
    assert (0 <= (n / 10 ^ Z.of_nat k) mod 10 < 10) as Hd by (apply Z.mod_pos_bound; lia).
    rewrite digit_not_underscore by (eexists; eauto).
    rewrite digit_val_digit_char by done.
    rewrite IH, mod_pow10_S. f_equal.
    rewrite Nat2Z.inj_succ, Z.pow_succ_r by lia. lia.
Qed.

Lemma rstrip_no_space (s : string) :
  str_all (fun c => is_space c = false) s -> rstrip s = s.
Proof.
  induction s as [|c s IH]; [done|]. intros [Hc Hs]. simpl.
  rewrite IH by done. rewrite Hc. by destruct s.
Qed.

(** [int] reads a digit string back as the number it writes. *)
Lemma py_int_dec_digits (k : nat) (n : Z) :
  py_int (dec_digits (S k) n) = Ok (n mod 10 ^ Z.of_nat (S k)).
Proof.
  unfold py_int.
  assert (rstrip (lstrip (dec_digits (S k) n)) = dec_digits (S k) n) as ->.
  { pose proof (dec_digits_all (S k) n) as Hall.
    rewrite <- (rstrip_no_space (dec_digits (S k) n)) at 2
      by (eapply str_all_impl; [apply digit_not_space | done]).
    f_equal. destruct Hall as [Hc _]. cbn [dec_digits lstrip].
    by rewrite (digit_not_space _ Hc). }
  pose proof (dec_digits_all (S k) n) as [Hc _].
  assert (parse_digits 0 false (dec_digits (S k) n)
          = Some (n mod 10 ^ Z.of_nat (S k))) as Hparse.
  { cbn [dec_digits parse_digits].
    assert (0 <= (n / 10 ^ Z.of_nat k) mod 10 < 10) as Hd by (apply Z.mod_pos_bound; lia).
    rewrite digit_not_underscore by (eexists; eauto).
    rewrite digit_val_digit_char by done.
    rewrite parse_digits_dec_digits, mod_pow10_S. f_equal; lia. }
  revert Hparse. cbn [dec_digits].
  set (rest := dec_digits k n). set (d := (n / 10 ^ Z.of_nat k) mod 10) in *.
  generalize (n mod 10 ^ Z.of_nat (S k)). intros v.
  clearbody rest d. digit_cases Hc; intros ->; reflexivity.
Qed.

(** ** Artifact names *)

Lemma digit_or_minus_not_dot (c : ascii) : is_digit_or_minus c -> c <> "."%char.
Proof. intros [H | ->]; [digit_cases H|]; discriminate. Qed.

Lemma digit_or_minus_not_d (c : ascii) : is_digit_or_minus c -> c <> "d"%char.
Proof. intros [H | ->]; [digit_cases H|]; discriminate. Qed.

Section Names.
Variable mid : string.
Hypothesis mid_chars : str_all is_digit_or_minus mid.

Lemma replace_pkl (new : string) :
  replace ("data_step" +:+ mid +:+ ".pkl") ".pkl" new = "data_step" +:+ mid +:+ new.
Proof.
  unfold replace. rewrite <- !append_assoc.
  rewrite replace_from_free.
  - rewrite <- (append_empty_r ".pkl") at 2. rewrite replace_from_match.
    by rewrite append_empty_r.
  - apply str_all_append. split.
    + simpl. repeat split; discriminate.
    + eapply str_all_impl; [apply digit_or_minus_not_dot | exact mid_chars].
Qed.

Lemma replace_data (new suffix : string) :
  str_all (fun c => c <> "d"%char) suffix ->
  replace ("data_step" +:+ mid +:+ suffix) "data" new = new +:+ "_step" +:+ mid +:+ suffix.
Proof.
  intros Hsuffix. unfold replace.
  change ("data_step" +:+ mid +:+ suffix) with ("data" +:+ "_step" +:+ mid +:+ suffix).
  rewrite replace_from_match. f_equal.
  apply replace_from_free_all.
  apply str_all_append. split; [simpl; repeat split; discriminate|].
  apply str_all_append. split; [|done].
  eapply str_all_impl; [apply digit_or_minus_not_d | exact mid_chars].
Qed.

Lemma replace_data_step (suffix : string) :
  str_all (fun c => c <> "d"%char) suffix ->
  replace ("data_step" +:+ mid +:+ suffix) "data_step" "" = mid +:+ suffix.
Proof.
  intros Hsuffix. unfold replace.
  rewrite replace_from_match, append_empty_l.
  apply replace_from_free_all.
  apply str_all_append. split; [|done].
  eapply str_all_impl; [apply digit_or_minus_not_d | exact mid_chars].
Qed.

Lemma replace_pkl_tail (new : string) :
  replace (mid +:+ ".pkl") ".pkl" new = mid +:+ new.
Proof.
  unfold replace. rewrite replace_from_free.
  - rewrite <- (append_empty_r ".pkl") at 2. rewrite replace_from_match.
    by rewrite append_empty_r.
  - eapply str_all_impl; [apply digit_or_minus_not_dot | exact mid_chars].
Qed.
End Names.

(** The three artifact names the code derives from the data file of an
    explicit step. *)
Lemma derived_file_name (kind : string) (n : Z) :
  replace (replace (data_file_name n) ".pkl" ".bin") "data" kind = artifact_name kind n.
Proof.
  unfold data_file_name, artifact_name.
  rewrite replace_pkl by apply format_07d_all.
  rewrite replace_data; [done | apply format_07d_all |].
  simpl. repeat split; discriminate.
Qed.

(** The step read back from the data file name. *)
Lemma step_of_data_file_name (n : Z) :
  0 <= n < 10 ^ 7 ->
  py_int (replace (replace (data_file_name n) "data_step" "") ".pkl" "") = Ok n.
Proof.
  intros Hn. unfold data_file_name.
  rewrite replace_data_step;
    [| apply format_07d_all | simpl; repeat split; discriminate].
  rewrite replace_pkl_tail by apply format_07d_all.
  rewrite append_empty_r, format_07d_seven by done.
  rewrite py_int_dec_digits. f_equal. apply Z.mod_small. exact Hn.
Qed.

(** ** The order on strings and [sorted] *)

Lemma compare_refl (s : string) : String.compare s s = Eq.
Proof.
  induction s as [|c s IH]; [done|]. simpl.
  unfold Ascii.compare. by rewrite N.compare_refl.
Qed.

Lemma compare_append_l (p a b : string) :
  String.compare (p +:+ a) (p +:+ b) = String.compare a b.
Proof.
  induction p as [|c p IH]; [done|]. rewrite !append_String. simpl.
  unfold Ascii.compare. by rewrite N.compare_refl.
Qed.

Lemma compare_append_r (a b s : string) :
  String.length a = String.length b ->
  String.compare (a +:+ s) (b +:+ s) = String.compare a b.
Proof.
  revert b. induction a as [|c a IH]; intros [|e b] Hlen; try discriminate.
  - rewrite !append_empty_l. apply compare_refl.
  - rewrite !append_String. simpl in *.
    destruct (Ascii.compare c e); [|done..].
    apply IH. congruence.
Qed.

(** Names of steps below ten million sort like their steps. *)
Lemma data_file_name_compare (n m : Z) :
  0 <= n < 10 ^ 7 -> 0 <= m < 10 ^ 7 ->
  String.compare (data_file_name n) (data_file_name m) = (n ?= m).
Proof.
  intros Hn Hm. unfold data_file_name. rewrite !format_07d_seven by done.
  rewrite compare_append_l, compare_append_r by (by rewrite !dec_digits_length).
  rewrite dec_digits_compare. by rewrite !Z.mod_small.
Qed.

Lemma artifact_name_compare (kind : string) (n m : Z) :
  0 <= n < 10 ^ 7 -> 0 <= m < 10 ^ 7 ->
  String.compare (artifact_name kind n) (artifact_name kind m) = (n ?= m).
Proof.
  intros Hn Hm. unfold artifact_name. rewrite !format_07d_seven by done.
  rewrite !compare_append_l, compare_append_r by (by rewrite !dec_digits_length).
  rewrite dec_digits_compare. by rewrite !Z.mod_small.
Qed.



Lemma leb_trans (a b c : string) :
  String.leb a b = true -> String.leb b c = true -> String.leb a c = true.
Proof.
  unfold String.leb. revert b c.
  induction a as [|x a IH]; intros [|y b] [|z c]; simpl; try done.
  unfold Ascii.compare.
  destruct (N.compare_spec (N_of_ascii x) (N_of_ascii y)) as [Hxy | Hxy | Hxy];
    destruct (N.compare_spec (N_of_ascii y) (N_of_ascii z)) as [Hyz | Hyz | Hyz];
    try done.
  - rewrite Hxy, Hyz, N.compare_refl. apply IH.
  - rewrite Hxy. by rewrite (proj2 (N.compare_lt_iff _ _) Hyz).
  - rewrite <- Hyz. by rewrite (proj2 (N.compare_lt_iff _ _) Hxy).
  - rewrite (proj2 (N.compare_lt_iff (N_of_ascii x) (N_of_ascii z))) by lia. done.
Qed.

Lemma leb_refl (a : string) : String.leb a a = true.
Proof. unfold String.leb. by rewrite compare_refl. Qed.

Lemma insert_sorted_elem (x y : string) (l : list string) :
  y ∈ insert_sorted x l <-> y = x \/ y ∈ l.
Proof.
  induction l as [|z l IH]; simpl.
  - rewrite list_elem_of_singleton, elem_of_nil. tauto.
  - destruct (String.leb x z); rewrite !elem_of_cons; [tauto|].
    rewrite IH. tauto.
Qed.

Lemma sorted_elem (y : string) (l : list string) : y ∈ sorted l <-> y ∈ l.
Proof.
  induction l as [|x l IH]; [done|]. simpl.
  rewrite insert_sorted_elem, IH, elem_of_cons. tauto.
Qed.

Lemma insert_sorted_StronglySorted (x : string) (l : list string) :
  StronglySorted (fun a b => String.leb a b = true) l ->
  StronglySorted (fun a b => String.leb a b = true) (insert_sorted x l).
Proof.
  induction 1 as [|z l Hl IH Hz]; simpl.
  - repeat constructor.
  - destruct (String.leb x z) eqn:Hxz.
    + constructor; [by constructor|]. constructor; [done|].
      eapply Forall_impl; [exact Hz|]. intros w Hw. by eapply leb_trans.
    + constructor; [done|]. apply Forall_forall. intros w Hw.
      apply insert_sorted_elem in Hw as [-> | Hw].
      * destruct (String.leb_total x z) as [H | H]; congruence.
      * rewrite Forall_forall in Hz. by apply Hz.
Qed.

Lemma sorted_StronglySorted (l : list string) :
  StronglySorted (fun a b => String.leb a b = true) (sorted l).
Proof.
  induction l as [|x l IH]; [constructor|]. by apply insert_sorted_StronglySorted.
Qed.

Lemma StronglySorted_last (l : list string) (m : string) :
  StronglySorted (fun a b => String.leb a b = true) l ->
  last l = Some m -> forall x, x ∈ l -> String.leb x m = true.
Proof.
  induction 1 as [|z l Hl IH Hz]; intros Hlast x Hx; [by apply elem_of_nil in Hx|].
  destruct l as [|y l].
  - simpl in Hlast. apply list_elem_of_singleton in Hx. simplify_eq. apply leb_refl.
  - rewrite last_cons_cons in Hlast.
    apply elem_of_cons in Hx as [-> | Hx]; [|by apply IH].
    rewrite Forall_forall in Hz. apply Hz. by apply last_Some_elem_of.
Qed.

(** [sorted(l)[-1]] is an element of [l] that no element exceeds, and it
    exists as soon as [l] is not empty. *)
Lemma sorted_last_greatest (l : list string) :
  l <> [] ->
  exists m, last_item (sorted l) = Ok m /\ m ∈ l /\
            forall x, x ∈ l -> String.leb x m = true.
Proof.
  intros Hne. unfold last_item.
  destruct (last (sorted l)) as [m|] eqn:Hlast.
  - exists m. split; [done|]. split.
    + apply sorted_elem. by apply last_Some_elem_of.
    + intros x Hx. eapply StronglySorted_last; [apply sorted_StronglySorted | done |].
      by apply sorted_elem.
  - apply last_None in Hlast. destruct l as [|x l]; [done|].
    assert (x ∈ sorted (x :: l)) as Hx by (apply sorted_elem, elem_of_cons; by left).
    rewrite Hlast in Hx. by apply elem_of_nil in Hx.
Qed.

Lemma sorted_nil_last : last_item (sorted []) = Raise IndexError.
Proof. reflexivity. Qed.

(** ** The phases of [_resume_training] *)

Lemma bind_Ok {A B : Type} (a : A) (f : A -> result B) : (Ok a ≫= f) = f a.
Proof. reflexivity. Qed.

Lemma bind_Raise {A B : Type} (e : exn) (f : A -> result B) : (Raise e ≫= f) = Raise e.
Proof. reflexivity. Qed.

Lemma overridden_lookup (kwargs args : gmap string pyval) (key : string) :
  overridden kwargs args !! key =
  match kwargs !! key with
  | Some value => if is_None value then args !! key else Some value
  | None => args !! key
  end.
Proof.
  unfold overridden.
  destruct (kwargs !! key) as [value|] eqn:Hkey.
  - destruct (is_None value) eqn:Hnone.
    + rewrite lookup_union_r; [done|].
      apply map_lookup_filter_None. right. intros v Hv. simpl. congruence.
    + apply lookup_union_Some_l. apply map_lookup_filter_Some. done.
  - rewrite lookup_union_r; [done|].
    apply map_lookup_filter_None. by left.
Qed.

Lemma apply_overrides_dict (kwargs args : gmap string pyval) :
  apply_overrides kwargs (PDict args) = Ok (PDict (overridden kwargs args)).
Proof.
  unfold apply_overrides.
  apply (map_fold_weak_ind
           (fun r m => r = Ok (PDict (overridden m args)))).
  - unfold overridden. by rewrite map_filter_empty, (left_id_L ∅ (∪)).
  - intros key value m r Hfresh ->. rewrite bind_Ok.
    unfold overridden. destruct (is_None value) eqn:Hnone.
    + by rewrite map_filter_insert_not' by (simpl; congruence || (intros; congruence)).
    + simpl. by rewrite map_filter_insert_True, insert_union_l by done.
Qed.

Lemma apply_overrides_not_dict (kwargs : gmap string pyval) (args : pyval) :
  (forall d, args <> PDict d) ->
  forall r, apply_overrides kwargs args = Ok r -> forall d, r <> PDict d.
Proof.
  intros Hnd. unfold apply_overrides.
  apply (map_fold_weak_ind
           (fun (res : result pyval) (_ : gmap string pyval) =>
              forall r, res = Ok r -> forall d, r <> PDict d)).
  - intros r [= <-]. done.
  - intros key value m res _ IH r.
    destruct res as [a|e]; [|done]. rewrite bind_Ok.
    destruct (is_None value).
    + intros [= <-]. by apply IH.
    + specialize (IH a eq_refl). destruct a; try done. by destruct (IH d).
Qed.

Section RestoreFacts.
Variable fs : filesystem.
Variables output_dir data_file : string.

Lemma restore_args_Ok (data stored : gmap string pyval) (step chunks : pyval) :
  joblib_load fs (os_path_join output_dir data_file) = Ok (PDict data) ->
  data !! "args" = Some (PDict stored) ->
  data !! "global_step" = Some step ->
  data !! "page_chunks" = Some chunks ->
  restore_args fs output_dir data_file =
  Ok (PDict (restored fs output_dir data_file stored step (record_epoch data) chunks)).
Proof.
  intros Hload Hargs Hstep Hchunks.
  unfold restore_args, restored, record_epoch. rewrite Hload, bind_Ok.
  unfold getitem, dict_get. rewrite Hargs, Hstep, Hchunks.
  destruct (data !! "epoch"); simpl;
    by destruct (os_path_exists fs _).
Qed.

Lemma restore_args_inv (args : pyval) :
  restore_args fs output_dir data_file = Ok args ->
  exists data stored step chunks,
    joblib_load fs (os_path_join output_dir data_file) = Ok (PDict data) /\
    data !! "args" = Some (PDict stored) /\
    data !! "global_step" = Some step /\
    data !! "page_chunks" = Some chunks /\
    args = PDict (restored fs output_dir data_file stored step (record_epoch data) chunks).
Proof.
  intros Hres.
  destruct (joblib_load fs (os_path_join output_dir data_file)) as [obj|e] eqn:Hload;
    [|by unfold restore_args in Hres; rewrite Hload in Hres].
  destruct obj as [| | | | | |data];
    try by unfold restore_args in Hres; rewrite Hload in Hres.
  destruct (data !! "args") as [a|] eqn:Hargs;
    [|by unfold restore_args, getitem in Hres; rewrite Hload, bind_Ok, Hargs in Hres].
  destruct (data !! "global_step") as [step|] eqn:Hstep;
    [|by unfold restore_args, getitem in Hres;
         rewrite Hload, bind_Ok, Hargs, bind_Ok, Hstep in Hres].
  destruct a as [| | | | | |stored];
    try by unfold restore_args, getitem in Hres;
           rewrite Hload, bind_Ok, Hargs, bind_Ok, Hstep in Hres.
  destruct (data !! "page_chunks") as [chunks|] eqn:Hchunks.
  - exists data, stored, step, chunks. repeat (split; [done|]).
    rewrite (restore_args_Ok data stored step chunks) in Hres by done. congruence.
  - unfold restore_args, getitem, dict_get in Hres.
    rewrite Hload, bind_Ok, Hargs, bind_Ok, Hstep, Hchunks in Hres.
    simpl in Hres. by destruct (data !! "epoch").
Qed.
End RestoreFacts.

Section ResumeFacts.
Context {R : Type}.
Variable train_func : gmap string pyval -> result R.
Variable fs : filesystem.

(** Once the data file is resolved and its record is complete, the
    training function is called, on the restored arguments overlaid with
    the non-null overrides. *)
Lemma resume_training_runs (json_data : option (gmap string pyval))
    (output_dir : string) (global_step : option Z) (kwargs : gmap string pyval)
    (data_file : string) (n : Z) (data stored : gmap string pyval)
    (step chunks : pyval) :
  resolve_data_file fs output_dir global_step = Ok (data_file, n) ->
  joblib_load fs (os_path_join output_dir data_file) = Ok (PDict data) ->
  data !! "args" = Some (PDict stored) ->
  data !! "global_step" = Some step ->
  data !! "page_chunks" = Some chunks ->
  _resume_training train_func fs json_data output_dir global_step kwargs =
  train_func (overridden (update_kwargs json_data kwargs)
                (restored fs output_dir data_file stored step (record_epoch data) chunks)).
Proof.
  intros Hres Hload Hargs Hstep Hchunks. unfold _resume_training.
  rewrite Hres, bind_Ok.
  rewrite (restore_args_Ok fs output_dir data_file data stored step chunks) by done.
  by rewrite bind_Ok, apply_overrides_dict, bind_Ok.
Qed.

Lemma resume_training_resolve_fails (json_data : option (gmap string pyval))
    (output_dir : string) (global_step : option Z) (kwargs : gmap string pyval)
    (e : exn) :
  resolve_data_file fs output_dir global_step = Raise e ->
  _resume_training train_func fs json_data output_dir global_step kwargs = Raise e.
Proof. intros Hres. unfold _resume_training. by rewrite Hres. Qed.

Lemma resume_training_restore_fails (json_data : option (gmap string pyval))
    (output_dir : string) (global_step : option Z) (kwargs : gmap string pyval)
    (data_file : string) (n : Z) (e : exn) :
  resolve_data_file fs output_dir global_step = Ok (data_file, n) ->
  restore_args fs output_dir data_file = Raise e ->
  _resume_training train_func fs json_data output_dir global_step kwargs = Raise e.
Proof. intros Hres Hrest. unfold _resume_training. by rewrite Hres, bind_Ok, Hrest. Qed.
End ResumeFacts.

(** ** The restored arguments, key by key *)

Section RestoredLookup.
Variable fs : filesystem.
Variables output_dir data_file : string.
Variable stored : gmap string pyval.
Variables step epoch chunks : pyval.

Lemma restored_global_step :
  restored fs output_dir data_file stored step epoch chunks !! "global_step" = Some step.
Proof.
  unfold restored. destruct (os_path_exists fs _);
    repeat (rewrite lookup_insert_ne by done); apply lookup_insert_eq.
Qed.

Lemma restored_epoch :
  restored fs output_dir data_file stored step epoch chunks !! "epoch" = Some epoch.
Proof.
  unfold restored. destruct (os_path_exists fs _);
    repeat (rewrite lookup_insert_ne by done); apply lookup_insert_eq.
Qed.

Lemma restored_page_chunks :
  restored fs output_dir data_file stored step epoch chunks !! "page_chunks" = Some chunks.
Proof.
  unfold restored. destruct (os_path_exists fs _);
    repeat (rewrite lookup_insert_ne by done); apply lookup_insert_eq.
Qed.

Lemma restored_model_file :
  restored fs output_dir data_file stored step epoch chunks !! "model_file" =
  Some (PStr (os_path_join output_dir
                (replace (replace data_file ".pkl" ".bin") "data" "model"))).
Proof.
  unfold restored. destruct (os_path_exists fs _);
    repeat (rewrite lookup_insert_ne by done); apply lookup_insert_eq.
Qed.

Lemma restored_optimizer_file :
  restored fs output_dir data_file stored step epoch chunks !! "optimizer_file" =
  Some (PStr (os_path_join output_dir
                (replace (replace data_file ".pkl" ".bin") "data" "optimizer"))).
Proof.
  unfold restored. destruct (os_path_exists fs _);
    repeat (rewrite lookup_insert_ne by done); apply lookup_insert_eq.
Qed.

(** The sparse-optimizer entry is written exactly when the bare file name
    exists, that is, relative to the working directory. *)
Lemma restored_sparse_optimizer_file :
  restored fs output_dir data_file stored step epoch chunks !! "sparse_optimizer_file" =
  if os_path_exists fs
       (replace (replace data_file ".pkl" ".bin") "data" "sparse_optimizer")
  then Some (PStr (os_path_join output_dir
                     (replace (replace data_file ".pkl" ".bin") "data" "sparse_optimizer")))
  else stored !! "sparse_optimizer_file".
Proof.
  unfold restored. destruct (os_path_exists fs _).
  - apply lookup_insert_eq.
  - by repeat (rewrite lookup_insert_ne by done).
Qed.

Lemma restored_other (key : string) :
  key ∉ derived_keys ->
  restored fs output_dir data_file stored step epoch chunks !! key = stored !! key.
Proof.
  intros Hkey. unfold derived_keys in Hkey.
  rewrite !not_elem_of_cons in Hkey. destruct Hkey as (? & ? & ? & ? & ? & ? & _).
  unfold restored. destruct (os_path_exists fs _);
    by repeat (rewrite lookup_insert_ne by done).
Qed.
End RestoredLookup.

Lemma resume_kwargs_keys (o : resume_options) (key : string) :
  key ∉ option_keys -> resume_kwargs o !! key = None.
Proof.
  intros Hkey. unfold option_keys in Hkey.
  rewrite !not_elem_of_cons in Hkey. destruct Hkey as (? & ? & ? & ? & ? & ? & _).
  unfold resume_kwargs. by repeat (rewrite lookup_insert_ne by done).
Qed.

(** ** Override precedence *)

(** C1.  Once the stored arguments are reconstructed from the record, the
    training function receives them with every override entry whose value
    is not [None] written over them; an entry whose value is [None], or a
    key that is no override at all, leaves the reconstructed value as it
    is.  The overrides are the options in [kwargs] updated with the JSON
    blob. *)
Theorem override_precedence {R : Type} (train_func : gmap string pyval -> result R)
    (fs : filesystem) (json_data : option (gmap string pyval)) (output_dir : string)
    (global_step : option Z) (kwargs : gmap string pyval)
    (data_file : string) (n : Z) (data stored : gmap string pyval)
    (step chunks : pyval) :
  resolve_data_file fs output_dir global_step = Ok (data_file, n) ->
  joblib_load fs (os_path_join output_dir data_file) = Ok (PDict data) ->
  data !! "args" = Some (PDict stored) ->
  data !! "global_step" = Some step ->
  data !! "page_chunks" = Some chunks ->
  let overrides := update_kwargs json_data kwargs in
  exists reconstructed effective : gmap string pyval,
    restore_args fs output_dir data_file = Ok (PDict reconstructed) /\
    apply_overrides overrides (PDict reconstructed) = Ok (PDict effective) /\
    _resume_training train_func fs json_data output_dir global_step kwargs =
      train_func effective /\
    (forall key value,
       overrides !! key = Some value -> value <> PNone ->
       effective !! key = Some value) /\
    (forall key,
       overrides !! key = Some PNone \/ overrides !! key = None ->
       effective !! key = reconstructed !! key).
Proof.
  intros Hres Hload Hargs Hstep Hchunks overrides.
  exists (restored fs output_dir data_file stored step (record_epoch data) chunks).
  eexists. split; [by apply restore_args_Ok|].
  split; [apply apply_overrides_dict|].
  split; [by eapply resume_training_runs|].
  split.
  - intros key value Hkey Hvalue. rewrite overridden_lookup, Hkey.
    by destruct value.
  - intros key [Hkey | Hkey]; by rewrite overridden_lookup, Hkey.
Qed.

Lemma override_precedence_witness :
  exists reconstructed effective : gmap string pyval,
    restore_args fs_steps "out" "data_step0000007.pkl" = Ok (PDict reconstructed) /\
    _resume_training Ok fs_steps None "out" (Some 7)
      (<["batch_size" := PInt 128]> (<["save_every" := PNone]> ∅)) = Ok effective /\
    effective !! "batch_size" = Some (PInt 128) /\
    effective !! "save_every" = reconstructed !! "save_every" /\
    effective !! "model_file" = reconstructed !! "model_file".
Proof.
  destruct (override_precedence Ok fs_steps None "out" (Some 7)
              (<["batch_size" := PInt 128]> (<["save_every" := PNone]> ∅))
              "data_step0000007.pkl" 7
              (<["args" := PDict (<["batch_size" := PInt 256]>
                                 (<["model_file" := PNone]> ∅))]>
              (<["global_step" := PInt 7]>
              (<["epoch" := PInt 1]>
              (<["page_chunks" := PList [PInt 3; PInt 4]]> ∅))))
              (<["batch_size" := PInt 256]> (<["model_file" := PNone]> ∅))
              (PInt 7) (PList [PInt 3; PInt 4])
              eq_refl eq_refl eq_refl eq_refl eq_refl)
    as (reconstructed & effective & Hrec & _ & Hrun & Hset & Hkeep).
  exists reconstructed, effective.
  split; [exact Hrec|]. split; [exact Hrun|]. split; [|split].
  - apply Hset; [reflexivity | discriminate].
  - apply Hkeep. left. reflexivity.
  - apply Hkeep. right. reflexivity.
Defined.

(** ** The reconstructed arguments *)

(** C4.  When the resolved data file is that of step [n] and its record
    holds the stored arguments, a step and the page chunks, the arguments
    the override loop starts from are the stored ones with [global_step],
    [epoch] and [page_chunks] taken from the record ([epoch] being 0 for a
    record without one), [model_file] set to [output_dir/model_step<n>.bin]
    and [optimizer_file] to [output_dir/optimizer_step<n>.bin]; every key
    the function does not write keeps its stored value, and the training
    function is called with these arguments under the overrides. *)
Theorem restored_arguments {R : Type} (train_func : gmap string pyval -> result R)
    (fs : filesystem) (json_data : option (gmap string pyval)) (output_dir : string)
    (global_step : option Z) (kwargs : gmap string pyval)
    (n parsed : Z) (data stored : gmap string pyval) (step chunks : pyval) :
  resolve_data_file fs output_dir global_step = Ok (data_file_name n, parsed) ->
  joblib_load fs (os_path_join output_dir (data_file_name n)) = Ok (PDict data) ->
  data !! "args" = Some (PDict stored) ->
  data !! "global_step" = Some step ->
  data !! "page_chunks" = Some chunks ->
  exists args : gmap string pyval,
    restore_args fs output_dir (data_file_name n) = Ok (PDict args) /\
    args !! "global_step" = Some step /\
    args !! "epoch" = Some (record_epoch data) /\
    args !! "page_chunks" = Some chunks /\
    args !! "model_file" =
      Some (PStr (os_path_join output_dir (artifact_name "model" n))) /\
    args !! "optimizer_file" =
      Some (PStr (os_path_join output_dir (artifact_name "optimizer" n))) /\
    (forall key, key ∉ derived_keys -> args !! key = stored !! key) /\
    _resume_training train_func fs json_data output_dir global_step kwargs =
      train_func (overridden (update_kwargs json_data kwargs) args).
Proof.
  intros Hres Hload Hargs Hstep Hchunks.
  exists (restored fs output_dir (data_file_name n) stored step (record_epoch data) chunks).
  split; [by apply restore_args_Ok|].
  split; [apply restored_global_step|].
  split; [apply restored_epoch|].
  split; [apply restored_page_chunks|].
  split; [by rewrite restored_model_file, derived_file_name|].
  split; [by rewrite restored_optimizer_file, derived_file_name|].
  split; [apply restored_other|].
  by eapply resume_training_runs.
Qed.

Lemma restored_arguments_witness :
  exists args : gmap string pyval,
    restore_args fs_steps "out" "data_step0000070.pkl" = Ok (PDict args) /\
    args !! "global_step" = Some (PInt 70) /\
    args !! "epoch" = Some (PInt 1) /\
    args !! "page_chunks" = Some (PList [PInt 3; PInt 4]) /\
    args !! "model_file" = Some (PStr "out/model_step0000070.bin") /\
    args !! "optimizer_file" = Some (PStr "out/optimizer_step0000070.bin") /\
    args !! "batch_size" = Some (PInt 256).
Proof.
  destruct (restored_arguments Ok fs_steps None "out" (Some 70) ∅ 70 70
              (<["args" := PDict (<["batch_size" := PInt 256]>
                                 (<["model_file" := PNone]> ∅))]>
              (<["global_step" := PInt 70]>
              (<["epoch" := PInt 1]>
              (<["page_chunks" := PList [PInt 3; PInt 4]]> ∅))))
              (<["batch_size" := PInt 256]> (<["model_file" := PNone]> ∅))
              (PInt 70) (PList [PInt 3; PInt 4])
              eq_refl eq_refl eq_refl eq_refl eq_refl)
    as (args & Hrec & Hstep & Hepoch & Hchunks & Hmodel & Hopt & Hother & _).
  exists args. repeat (split; [assumption|]).
  rewrite Hother; [reflexivity|].
  unfold derived_keys. rewrite !not_elem_of_cons. repeat (split; [discriminate|]).
  apply not_elem_of_nil.
Defined.

(** ** Missing model or optimizer file *)

(** C5, as the code has it.  The function never tests the model file or the
    optimizer file.  When either is missing for the resolved step, it still
    writes both derived paths into the arguments and calls the training
    function. *)
Theorem missing_model_or_optimizer_not_checked {R : Type}
    (train_func : gmap string pyval -> result R)
    (fs : filesystem) (json_data : option (gmap string pyval)) (output_dir : string)
    (global_step : option Z) (kwargs : gmap string pyval)
    (n parsed : Z) (data stored : gmap string pyval) (step chunks : pyval) :
  resolve_data_file fs output_dir global_step = Ok (data_file_name n, parsed) ->
  joblib_load fs (os_path_join output_dir (data_file_name n)) = Ok (PDict data) ->
  data !! "args" = Some (PDict stored) ->
  data !! "global_step" = Some step ->
  data !! "page_chunks" = Some chunks ->
  os_path_exists fs (os_path_join output_dir (artifact_name "model" n)) = false \/
  os_path_exists fs (os_path_join output_dir (artifact_name "optimizer" n)) = false ->
  exists args : gmap string pyval,
    restore_args fs output_dir (data_file_name n) = Ok (PDict args) /\
    args !! "model_file" =
      Some (PStr (os_path_join output_dir (artifact_name "model" n))) /\
    args !! "optimizer_file" =
      Some (PStr (os_path_join output_dir (artifact_name "optimizer" n))) /\
    _resume_training train_func fs json_data output_dir global_step kwargs =
      train_func (overridden (update_kwargs json_data kwargs) args).
Proof.
  intros Hres Hload Hargs Hstep Hchunks _.
  exists (restored fs output_dir (data_file_name n) stored step (record_epoch data) chunks).
  split; [by apply restore_args_Ok|].
  split; [by rewrite restored_model_file, derived_file_name|].
  split; [by rewrite restored_optimizer_file, derived_file_name|].
  by eapply resume_training_runs.
Qed.

Lemma missing_model_or_optimizer_not_checked_witness :
  exists args : gmap string pyval,
    restore_args fs_record_only "out" "data_step0000007.pkl" = Ok (PDict args) /\
    args !! "model_file" = Some (PStr "out/model_step0000007.bin") /\
    args !! "optimizer_file" = Some (PStr "out/optimizer_step0000007.bin") /\
    _resume_training Ok fs_record_only None "out" (Some 7) ∅ = Ok (overridden ∅ args).
Proof.
  apply (missing_model_or_optimizer_not_checked Ok fs_record_only None "out" (Some 7) ∅ 7 7
           (<["args" := PDict (<["batch_size" := PInt 256]>
                              (<["model_file" := PNone]> ∅))]>
           (<["global_step" := PInt 7]>
           (<["epoch" := PInt 1]>
           (<["page_chunks" := PList [PInt 3; PInt 4]]> ∅))))
           (<["batch_size" := PInt 256]> (<["model_file" := PNone]> ∅))
           (PInt 7) (PList [PInt 3; PInt 4])
           eq_refl eq_refl eq_refl eq_refl eq_refl (or_introl eq_refl)).
Defined.

(** The step-7 checkpoint has neither model nor optimizer file, and the
    resume reaches the training function all the same. *)
Lemma missing_model_is_not_fatal :
  os_path_exists fs_record_only "out/model_step0000007.bin" = false /\
  os_path_exists fs_record_only "out/optimizer_step0000007.bin" = false /\
  _resume_training Ok fs_record_only None "out" (Some 7) ∅ =
  Ok (<["batch_size" := PInt 256]>
     (<["global_step" := PInt 7]>
     (<["epoch" := PInt 1]>
     (<["page_chunks" := PList [PInt 3; PInt 4]]>
     (<["model_file" := PStr "out/model_step0000007.bin"]>
     (<["optimizer_file" := PStr "out/optimizer_step0000007.bin"]> ∅)))))) /\
  forall e, _resume_training Ok fs_record_only None "out" (Some 7) ∅ <> Raise e.
Proof.
  split; [reflexivity|]. split; [reflexivity|].
  match goal with |- ?run = ?res /\ _ => assert (run = res) as Hrun by reflexivity end.
  split; [exact Hrun|]. intros e He. rewrite Hrun in He. discriminate.
Qed.

(** ** Round trip of the stored arguments *)

(** C8, as the code has it.  Resuming at the explicit step [n] hands the
    training function the stored arguments on every key that is neither
    written by the function ([global_step], [epoch], [page_chunks],
    [model_file], [optimizer_file], [sparse_optimizer_file]) nor overridden
    with a value other than [None]; an overridden key carries the
    override. *)
Theorem round_trip_outside_derived_keys {R : Type}
    (train_func : gmap string pyval -> result R)
    (fs : filesystem) (json_data : option (gmap string pyval)) (output_dir : string)
    (kwargs : gmap string pyval)
    (n : Z) (data stored : gmap string pyval) (step chunks : pyval) :
  joblib_load fs (os_path_join output_dir (data_file_name n)) = Ok (PDict data) ->
  data !! "args" = Some (PDict stored) ->
  data !! "global_step" = Some step ->
  data !! "page_chunks" = Some chunks ->
  let overrides := update_kwargs json_data kwargs in
  exists effective : gmap string pyval,
    _resume_training train_func fs json_data output_dir (Some n) kwargs =
      train_func effective /\
    (forall key,
       key ∉ derived_keys ->
       overrides !! key = None \/ overrides !! key = Some PNone ->
       effective !! key = stored !! key) /\
    (forall key value,
       overrides !! key = Some value -> value <> PNone ->
       effective !! key = Some value).
Proof.
  intros Hload Hargs Hstep Hchunks overrides.
  eexists. split.
  - by eapply (resume_training_runs train_func fs json_data output_dir (Some n) kwargs
                 (data_file_name n) n).
  - split.
    + intros key Hkey Hov. rewrite overridden_lookup.
      fold overrides. destruct Hov as [-> | ->]; by apply restored_other.
    + intros key value Hkey Hvalue. rewrite overridden_lookup.
      fold overrides. rewrite Hkey. by destruct value.
Qed.

Lemma round_trip_outside_derived_keys_witness :
  exists effective : gmap string pyval,
    _resume_training Ok fs_steps None "out" (Some 7) (<["save_every" := PInt 100]> ∅) =
      Ok effective /\
    effective !! "batch_size" = Some (PInt 256) /\
    effective !! "save_every" = Some (PInt 100).
Proof.
  destruct (round_trip_outside_derived_keys Ok fs_steps None "out"
              (<["save_every" := PInt 100]> ∅) 7
              (<["args" := PDict (<["batch_size" := PInt 256]>
                                 (<["model_file" := PNone]> ∅))]>
              (<["global_step" := PInt 7]>
              (<["epoch" := PInt 1]>
              (<["page_chunks" := PList [PInt 3; PInt 4]]> ∅))))
              (<["batch_size" := PInt 256]> (<["model_file" := PNone]> ∅))
              (PInt 7) (PList [PInt 3; PInt 4])
              eq_refl eq_refl eq_refl eq_refl)
    as (effective & Hrun & Hkeep & Hset).
  exists effective. split; [exact Hrun|]. split.
  - rewrite Hkeep; [reflexivity | | left; reflexivity].
    unfold derived_keys. rewrite !not_elem_of_cons. repeat (split; [discriminate|]).
    apply not_elem_of_nil.
  - apply Hset; [reflexivity | discriminate].
Defined.

(** With no override at all, the arguments resumed at step 7 differ from
    the stored ones: [model_file] was stored as [None] and [global_step] was
    not stored. *)
Lemma round_trip_changes_derived_keys :
  getitem (sample_record 7) "args" =
    Ok (PDict (<["batch_size" := PInt 256]> (<["model_file" := PNone]> ∅))) /\
  _resume_training Ok fs_steps None "out" (Some 7) ∅ =
    Ok (<["batch_size" := PInt 256]>
       (<["global_step" := PInt 7]>
       (<["epoch" := PInt 1]>
       (<["page_chunks" := PList [PInt 3; PInt 4]]>
       (<["model_file" := PStr "out/model_step0000007.bin"]>
       (<["optimizer_file" := PStr "out/optimizer_step0000007.bin"]> ∅)))))) /\
  forall effective : gmap string pyval,
    _resume_training Ok fs_steps None "out" (Some 7) ∅ = Ok effective ->
    effective <> <["batch_size" := PInt 256]> (<["model_file" := PNone]> ∅).
Proof.
  split; [reflexivity|]. split; [reflexivity|].
  intros effective Hrun Heq. subst effective.
  apply (f_equal (fun r => match r with
                           | Ok m => m !! "global_step"
                           | Raise _ => None
                           end)) in Hrun.
  vm_compute in Hrun. discriminate.
Qed.

(** ** Records without an epoch *)

(** C9.  A record without an ['epoch'] entry resumes with epoch 0: the
    training function is called, and its [epoch] argument is 0 unless an
    override names it.  A record without ['args'], ['global_step'] or
    ['page_chunks'] makes the function raise before the training function
    is called, [KeyError] for the first of the three that is missing, or
    [TypeError] when the stored ['args'] is no dict. *)
Theorem epoch_defaults_to_zero {R : Type} (train_func : gmap string pyval -> result R)
    (fs : filesystem) (json_data : option (gmap string pyval)) (output_dir : string)
    (global_step : option Z) (kwargs : gmap string pyval)
    (data_file : string) (n : Z) (data : gmap string pyval) :
  resolve_data_file fs output_dir global_step = Ok (data_file, n) ->
  joblib_load fs (os_path_join output_dir data_file) = Ok (PDict data) ->
  (forall stored step chunks,
     data !! "args" = Some (PDict stored) ->
     data !! "global_step" = Some step ->
     data !! "page_chunks" = Some chunks ->
     data !! "epoch" = None ->
     exists args : gmap string pyval,
       restore_args fs output_dir data_file = Ok (PDict args) /\
       args !! "epoch" = Some (PInt 0) /\
       _resume_training train_func fs json_data output_dir global_step kwargs =
         train_func (overridden (update_kwargs json_data kwargs) args) /\
       (update_kwargs json_data kwargs !! "epoch" = None ->
        overridden (update_kwargs json_data kwargs) args !! "epoch" = Some (PInt 0))) /\
  (data !! "args" = None \/ data !! "global_step" = None \/ data !! "page_chunks" = None ->
   exists e,
     _resume_training train_func fs json_data output_dir global_step kwargs = Raise e /\
     (e = TypeError \/
      exists key, key ∈ ["args"; "global_step"; "page_chunks"] /\
                  data !! key = None /\ e = KeyError key)).
Proof.
  intros Hres Hload. split.
  - intros stored step chunks Hargs Hstep Hchunks Hepoch.
    exists (restored fs output_dir data_file stored step (record_epoch data) chunks).
    split; [by apply restore_args_Ok|].
    split; [rewrite restored_epoch; unfold record_epoch; by rewrite Hepoch|].
    split; [by eapply resume_training_runs|].
    intros Hov. rewrite overridden_lookup, Hov, restored_epoch.
    unfold record_epoch. by rewrite Hepoch.
  - intros Hmissing.
    assert (exists e, restore_args fs output_dir data_file = Raise e /\
              (e = TypeError \/
               exists key, key ∈ ["args"; "global_step"; "page_chunks"] /\
                           data !! key = None /\ e = KeyError key)) as (e & Hfail & He).
    { unfold restore_args, getitem, dict_get. rewrite Hload, bind_Ok.
      destruct (data !! "args") as [a|] eqn:Hargs.
      - rewrite bind_Ok.
        destruct (data !! "global_step") as [step|] eqn:Hstep.
        + rewrite bind_Ok.
          destruct a as [| | | | | |stored];
            try (exists TypeError; split; [reflexivity | by left]).
          destruct (data !! "page_chunks") eqn:Hchunks.
          { by destruct Hmissing as [? | [? | ?]]. }
          exists (KeyError "page_chunks"). split.
          * by destruct (data !! "epoch").
          * right. exists "page_chunks". rewrite !elem_of_cons. tauto.
        + exists (KeyError "global_step"). split; [reflexivity|]. right.
          exists "global_step". rewrite !elem_of_cons. tauto.
      - exists (KeyError "args"). split; [reflexivity|]. right.
        exists "args". rewrite !elem_of_cons. tauto. }
    exists e. split; [|exact He]. by eapply resume_training_restore_fails.
Qed.

Lemma epoch_defaults_to_zero_witness :
  (exists args : gmap string pyval,
     restore_args fs_old "out" "data_step0000007.pkl" = Ok (PDict args) /\
     args !! "epoch" = Some (PInt 0) /\
     _resume_training Ok fs_old None "out" None ∅ = Ok (overridden ∅ args) /\
     overridden ∅ args !! "epoch" = Some (PInt 0)) /\
  (exists e, _resume_training Ok fs_broken None "out" (Some 7) ∅ = Raise e).
Proof.
  split.
  - destruct (epoch_defaults_to_zero Ok fs_old None "out" None ∅
                "data_step0000007.pkl" 7
                (<["args" := PDict (<["batch_size" := PInt 256]> ∅)]>
                (<["global_step" := PInt 7]>
                (<["page_chunks" := PList []]> ∅)))
                eq_refl eq_refl) as [Hok _].
    destruct (Hok (<["batch_size" := PInt 256]> ∅) (PInt 7) (PList [])
                eq_refl eq_refl eq_refl eq_refl) as (args & Hrec & Hepoch & Hrun & Hov).
    exists args. repeat (split; [assumption|]). apply Hov. reflexivity.
  - destruct (epoch_defaults_to_zero Ok fs_broken None "out" (Some 7) ∅
                "data_step0000007.pkl" 7
                (<["args" := PDict (<["batch_size" := PInt 256]> ∅)]>
                (<["global_step" := PInt 7]>
                (<["epoch" := PInt 1]> ∅)))
                eq_refl eq_refl) as [_ Hfail].
    destruct Hfail as (e & Hrun & _).
    + right. right. reflexivity.
    + exists e. exact Hrun.
Defined.

(** ** Command-line overrides *)

(** C10.  Without a JSON blob the overrides that reach the loop are the six
    options [batch_size], [gradient_accumulation_steps], [learning_rate],
    [lr_decay], [num_train_steps] and [save_every]: [--global-step] is not
    among them, the loop leaves every other key of the reconstructed
    arguments as it is, and so [global_step], [epoch], [page_chunks],
    [model_file] and [optimizer_file] reach the training function with the
    values the function derived.  Both commands behave alike. *)
Theorem cli_overrides_frame {R : Type}
    (run_training run_e2e_training : gmap string pyval -> result R)
    (fs : filesystem) (o : resume_options)
    (data_file : string) (n : Z) (data stored : gmap string pyval)
    (step chunks : pyval) :
  json_data o = None ->
  resolve_data_file fs (output_dir o) (global_step o) = Ok (data_file, n) ->
  joblib_load fs (os_path_join (output_dir o) data_file) = Ok (PDict data) ->
  data !! "args" = Some (PDict stored) ->
  data !! "global_step" = Some step ->
  data !! "page_chunks" = Some chunks ->
  exists args effective : gmap string pyval,
    restore_args fs (output_dir o) data_file = Ok (PDict args) /\
    apply_overrides (resume_kwargs o) (PDict args) = Ok (PDict effective) /\
    resume_training run_training fs o = run_training effective /\
    resume_e2e_training run_e2e_training fs o = run_e2e_training effective /\
    resume_kwargs o !! "global_step" = None /\
    (forall key, key ∉ option_keys -> effective !! key = args !! key) /\
    (forall key,
       key ∈ ["global_step"; "epoch"; "page_chunks"; "model_file"; "optimizer_file"] ->
       effective !! key = args !! key).
Proof.
  intros Hjson Hres Hload Hargs Hstep Hchunks.
  exists (restored fs (output_dir o) data_file stored step (record_epoch data) chunks).
  eexists. split; [by apply restore_args_Ok|].
  split; [apply apply_overrides_dict|].
  assert (forall key, key ∉ option_keys ->
            overridden (resume_kwargs o)
              (restored fs (output_dir o) data_file stored step (record_epoch data) chunks)
              !! key =
            restored fs (output_dir o) data_file stored step (record_epoch data) chunks
              !! key) as Hframe.
  { intros key Hkey. by rewrite overridden_lookup, resume_kwargs_keys. }
  split; [|split; [|split; [|split]]].
  - unfold resume_training.
    rewrite (resume_training_runs run_training fs (json_data o) (output_dir o)
               (global_step o) (resume_kwargs o) data_file n data stored step chunks)
      by done.
    by rewrite Hjson.
  - unfold resume_e2e_training.
    rewrite (resume_training_runs run_e2e_training fs (json_data o) (output_dir o)
               (global_step o) (resume_kwargs o) data_file n data stored step chunks)
      by done.
    by rewrite Hjson.
  - apply resume_kwargs_keys. unfold option_keys.
    rewrite !not_elem_of_cons. repeat (split; [discriminate|]). apply not_elem_of_nil.
  - exact Hframe.
  - intros key Hkey. apply Hframe. unfold option_keys.
    rewrite !elem_of_cons in Hkey. rewrite !not_elem_of_cons.
    destruct Hkey as [-> | [-> | [-> | [-> | [-> | Hkey]]]]];
      [..| by apply elem_of_nil in Hkey];
      repeat (split; [discriminate|]); apply not_elem_of_nil.
Qed.

Lemma cli_overrides_frame_witness :
  exists args effective : gmap string pyval,
    restore_args fs_steps "out" "data_step0000007.pkl" = Ok (PDict args) /\
    resume_training Ok fs_steps sample_options = Ok effective /\
    effective !! "global_step" = args !! "global_step" /\
    effective !! "model_file" = args !! "model_file".
Proof.
  destruct (cli_overrides_frame Ok Ok fs_steps sample_options
              "data_step0000007.pkl" 7
              (<["args" := PDict (<["batch_size" := PInt 256]>
                                 (<["model_file" := PNone]> ∅))]>
              (<["global_step" := PInt 7]>
              (<["epoch" := PInt 1]>
              (<["page_chunks" := PList [PInt 3; PInt 4]]> ∅))))
              (<["batch_size" := PInt 256]> (<["model_file" := PNone]> ∅))
              (PInt 7) (PList [PInt 3; PInt 4])
              eq_refl eq_refl eq_refl eq_refl eq_refl eq_refl)
    as (args & effective & Hrec & _ & Hrun & _ & _ & _ & Hframe).
  exists args, effective. split; [exact Hrec|]. split; [exact Hrun|].
  split; apply Hframe; rewrite !elem_of_cons; tauto.
Defined.

(** ** Finding the latest checkpoint *)

(** Without an explicit step the data file is the greatest matching name
    of the directory, and the step is read from that name. *)
Lemma resolve_latest (fs : filesystem) (output_dir : string) (names : list string) :
  os_listdir fs output_dir = Ok names ->
  data_files names <> [] ->
  exists data_file,
    data_file ∈ data_files names /\
    (forall f, f ∈ data_files names -> String.leb f data_file = true) /\
    resolve_data_file fs output_dir None =
      (n ← py_int (replace (replace data_file "data_step" "") ".pkl" "");
       Ok (data_file, n)).
Proof.
  intros Hlist Hne.
  destruct (sorted_last_greatest (data_files names) Hne) as (m & Hlast & Hin & Hmax).
  exists m. split; [done|]. split; [done|].
  unfold resolve_data_file. by rewrite Hlist, bind_Ok, Hlast, bind_Ok.
Qed.

(** C2, as the code has it.  Without an explicit step the selected data
    file is the greatest data-record name of the directory in the
    code-point order.  When every data-record name there is
    [data_step<N>.pkl] with [N] below ten million, hence written with
    exactly seven digits, the selected file is that of the greatest step
    and the step read from its name is that step. *)
Theorem latest_checkpoint_selected (fs : filesystem) (output_dir : string)
    (names : list string) :
  os_listdir fs output_dir = Ok names ->
  data_files names <> [] ->
  exists data_file,
    data_file ∈ data_files names /\
    (forall f, f ∈ data_files names -> String.leb f data_file = true) /\
    resolve_data_file fs output_dir None =
      (n ← py_int (replace (replace data_file "data_step" "") ".pkl" "");
       Ok (data_file, n)) /\
    ((forall f, f ∈ data_files names ->
                exists m, 0 <= m < 10 ^ 7 /\ f = data_file_name m) ->
     exists n,
       0 <= n < 10 ^ 7 /\
       data_file = data_file_name n /\
       resolve_data_file fs output_dir None = Ok (data_file_name n, n) /\
       (forall m, 0 <= m < 10 ^ 7 -> data_file_name m ∈ data_files names -> m <= n)).
Proof.
  intros Hlist Hne.
  destruct (resolve_latest fs output_dir names Hlist Hne) as (f & Hin & Hmax & Hres).
  exists f. repeat (split; [done|]).
  intros Hform. destruct (Hform f Hin) as (n & Hn & ->).
  exists n. split; [done|]. split; [done|]. split.
  - by rewrite Hres, step_of_data_file_name.
  - intros m Hm Hmin. specialize (Hmax _ Hmin).
    unfold String.leb in Hmax. rewrite data_file_name_compare in Hmax by done.
    destruct (Z.compare_spec m n); [lia | lia | done].
Qed.

Lemma latest_checkpoint_selected_witness :
  resolve_data_file fs_steps "out" None = Ok (data_file_name 700, 700).
Proof.
  destruct (latest_checkpoint_selected fs_steps "out"
              ["optimizer_step0000700.bin"; "optimizer_step0000070.bin";
               "optimizer_step0000007.bin"; "model_step0000700.bin";
               "model_step0000070.bin"; "model_step0000007.bin";
               "data_step0000700.pkl"; "data_step0000070.pkl";
               "data_step0000007.pkl"] eq_refl)
    as (f & Hin & _ & _ & Hsteps).
  { discriminate. }
  change (data_files _) with
    [data_file_name 700; data_file_name 70; data_file_name 7] in Hin, Hsteps.
  destruct Hsteps as (n & Hn & Hf & Hres & Hmax).
  { intros g Hg. rewrite !elem_of_cons in Hg.
    destruct Hg as [-> | [-> | [-> | Hg]]].
    - exists 700. split; [lia | reflexivity].
    - exists 70. split; [lia | reflexivity].
    - exists 7. split; [lia | reflexivity].
    - destruct (proj1 (elem_of_nil _) Hg). }
  assert (n = 700) as Hn700; [|rewrite Hn700 in Hres; exact Hres].
  clear Hres.
  assert (700 <= n) as Hge.
  { apply Hmax; [lia|]. apply elem_of_cons. left. reflexivity. }
  clear Hmax. rewrite Hf in Hin. clear Hf f. rewrite !elem_of_cons in Hin.
  assert (forall m, 0 <= m < 10 ^ 7 -> data_file_name n = data_file_name m -> n = m)
    as Hinj.
  { intros m Hm Heq. pose proof (data_file_name_compare n m Hn Hm) as Hcmp.
    rewrite Heq, compare_refl in Hcmp. symmetry in Hcmp.
    apply Z.compare_eq in Hcmp. exact Hcmp. }
  destruct Hin as [Hin | [Hin | [Hin | Hin]]].
  - apply Hinj; [lia | exact Hin].
  - apply Hinj in Hin; lia.
  - apply Hinj in Hin; lia.
  - destruct (proj1 (elem_of_nil _) Hin).
Defined.

(** With the checkpoints of steps 9999999 and 10000000 in the directory,
    both named by ['data_step%07d.pkl'], the step resolved is 9999999. *)
Lemma latest_checkpoint_beyond_seven_digits :
  os_listdir fs_wide "out" = Ok [data_file_name 9999999; data_file_name 10000000] /\
  resolve_data_file fs_wide "out" None = Ok (data_file_name 9999999, 9999999) /\
  9999999 < 10000000.
Proof. repeat split; reflexivity. Qed.

(** ** Artifact names *)

(** C7, as the code has it.  For an explicit step [n] from 0 to 9999999 the
    data record loaded is ['data_step'], the seven decimal digits of [n]
    with leading zeros, ['.pkl']; the model and optimizer names derived
    from it are [model_step<n>.bin] and [optimizer_step<n>.bin] with the
    same seven digits; and among such steps the code-point order of each
    kind of name is the order of the steps. *)
Theorem seven_digit_names (fs : filesystem) (output_dir : string) (n : Z) :
  0 <= n < 10 ^ 7 ->
  resolve_data_file fs output_dir (Some n) =
    Ok ("data_step" +:+ dec_digits 7 n +:+ ".pkl", n) /\
  String.length (dec_digits 7 n) = 7%nat /\
  str_all is_digit (dec_digits 7 n) /\
  py_int (dec_digits 7 n) = Ok n /\
  replace (replace (data_file_name n) ".pkl" ".bin") "data" "model" =
    "model_step" +:+ dec_digits 7 n +:+ ".bin" /\
  replace (replace (data_file_name n) ".pkl" ".bin") "data" "optimizer" =
    "optimizer_step" +:+ dec_digits 7 n +:+ ".bin" /\
  (forall m, 0 <= m < 10 ^ 7 ->
     String.compare (data_file_name n) (data_file_name m) = (n ?= m) /\
     String.compare (artifact_name "model" n) (artifact_name "model" m) = (n ?= m) /\
     String.compare (artifact_name "optimizer" n) (artifact_name "optimizer" m) = (n ?= m)).
Proof.
  intros Hn.
  split; [by unfold resolve_data_file, data_file_name; rewrite format_07d_seven|].
  split; [apply dec_digits_length|].
  split; [apply dec_digits_all|].
  split; [rewrite py_int_dec_digits; f_equal; by apply Z.mod_small|].
  split; [rewrite derived_file_name; unfold artifact_name; by rewrite format_07d_seven|].
  split; [rewrite derived_file_name; unfold artifact_name; by rewrite format_07d_seven|].
  intros m Hm.
  split; [by apply data_file_name_compare|].
  split; by apply artifact_name_compare.
Qed.

Lemma seven_digit_names_witness :
  resolve_data_file fs_steps "out" (Some 70) = Ok ("data_step0000070.pkl", 70) /\
  replace (replace (data_file_name 70) ".pkl" ".bin") "data" "model" =
    "model_step0000070.bin" /\
  String.compare (data_file_name 70) (data_file_name 700) = Lt.
Proof.
  destruct (seven_digit_names fs_steps "out" 70 ltac:(lia))
    as (Hres & _ & _ & _ & Hmodel & _ & Horder).
  split; [exact Hres|]. split; [exact Hmodel|].
  destruct (Horder 700 ltac:(lia)) as [-> _]. reflexivity.
Defined.

(** Step 10000000 is written with eight digits and its name sorts before
    that of step 9999999; step -5 is written [-000005]. *)
Lemma eight_digit_name :
  resolve_data_file fs_wide "out" (Some 10000000) = Ok ("data_step10000000.pkl", 10000000) /\
  String.length (format_07d 10000000) = 8%nat /\
  String.ltb (data_file_name 10000000) (data_file_name 9999999) = true /\
  data_file_name (-5) = "data_step-000005.pkl".
Proof. repeat split; reflexivity. Qed.

(** ** Nothing to resume *)




(** ** The sparse-optimizer file *)

(** C3 at the failing input.  The sparse-optimizer file of step 7 exists in
    the run directory, and the arguments handed to the training function
    have no [sparse_optimizer_file] entry: the existence test is made on the
    bare file name, relative to the working directory. *)
Theorem sparse_optimizer_file_overlooked :
  os_path_exists fs_sparse (os_path_join "out" (artifact_name "sparse_optimizer" 7)) = true /\
  os_path_exists fs_sparse (artifact_name "sparse_optimizer" 7) = false /\
  _resume_training Ok fs_sparse None "out" (Some 7) ∅ =
    Ok (<["batch_size" := PInt 256]>
       (<["global_step" := PInt 7]>
       (<["epoch" := PInt 1]>
       (<["page_chunks" := PList [PInt 3; PInt 4]]>
       (<["model_file" := PStr "out/model_step0000007.bin"]>
       (<["optimizer_file" := PStr "out/optimizer_step0000007.bin"]> ∅)))))).
Proof. repeat split; reflexivity. Qed.


(** ** Steps and names, for every integer *)

Lemma num_digits_fuel_bound (fuel : nat) (n : Z) :
  0 <= n -> n < 2 ^ Z.of_nat (S fuel) -> n < 10 ^ Z.of_nat (num_digits_fuel fuel n).
Proof.
  revert n. induction fuel as [|f IH]; intros n Hn Hlt.
  - simpl. change (2 ^ Z.of_nat 1) with 2 in Hlt. change (10 ^ Z.of_nat 1) with 10. lia.
  - cbn [num_digits_fuel]. destruct (n <? 10) eqn:Hsmall.
    + apply Z.ltb_lt in Hsmall. change (10 ^ Z.of_nat 1) with 10. exact Hsmall.
    + apply Z.ltb_ge in Hsmall.
      assert (n / 10 < 10 ^ Z.of_nat (num_digits_fuel f (n / 10))) as Hrec.
      { apply IH; [apply Z.div_pos; lia|].
        rewrite Nat2Z.inj_succ, Z.pow_succ_r in Hlt by lia.
        apply Z.div_lt_upper_bound; lia. }
      rewrite Nat2Z.inj_succ, Z.pow_succ_r by lia.
      pose proof (Z.div_mod n 10 ltac:(lia)) as Hdm.
      pose proof (Z.mod_pos_bound n 10 ltac:(lia)) as Hmod. lia.
Qed.

Lemma num_digits_bound (n : Z) : 0 <= n -> n < 10 ^ Z.of_nat (num_digits n).
Proof.
  intros Hn. unfold num_digits. apply num_digits_fuel_bound; [done|].
  destruct (Z.eq_dec n 0) as [-> | Hne]; [reflexivity|].
  rewrite Nat2Z.inj_succ, Z2Nat.id by apply Z.log2_nonneg.
  apply Z.log2_spec. lia.
Qed.

Lemma parse_digits_start (k : nat) (n : Z) :
  parse_digits 0 false (dec_digits (S k) n) = Some (n mod 10 ^ Z.of_nat (S k)).
Proof.
  cbn [dec_digits parse_digits].
  assert (0 <= (n / 10 ^ Z.of_nat k) mod 10 < 10) as Hd by (apply Z.mod_pos_bound; lia).
  rewrite digit_not_underscore by (eexists; eauto).
  rewrite digit_val_digit_char by done.
  rewrite parse_digits_dec_digits, mod_pow10_S. f_equal; lia.
Qed.

(** [int] reads back what ['%07d'] writes, sign included. *)
Lemma py_int_format_07d (n : Z) : py_int (format_07d n) = Ok n.
Proof.
  unfold format_07d. destruct (n <? 0) eqn:Hneg.
  - apply Z.ltb_lt in Hneg.
    pose proof (num_digits_bound (- n) ltac:(lia)) as Hbound.
    destruct (Nat.max 6 (num_digits (- n))) as [|k] eqn:Hk; [lia|].
    assert (- n < 10 ^ Z.of_nat (S k)) as Hlt.
    { eapply Z.lt_le_trans; [exact Hbound|]. apply Z.pow_le_mono_r; lia. }
    unfold py_int. cbn [lstrip]. change (is_space "-") with false. cbv iota.
    rewrite rstrip_no_space.
    + rewrite parse_digits_start. cbn. f_equal. rewrite Z.mod_small by lia. lia.
    + split; [reflexivity|].
      eapply str_all_impl; [apply digit_not_space | apply dec_digits_all].
  - apply Z.ltb_ge in Hneg.
    pose proof (num_digits_bound n Hneg) as Hbound.
    destruct (Nat.max 7 (num_digits n)) as [|k] eqn:Hk; [lia|].
    assert (n < 10 ^ Z.of_nat (S k)) as Hlt.
    { eapply Z.lt_le_trans; [exact Hbound|]. apply Z.pow_le_mono_r; lia. }
    rewrite py_int_dec_digits. f_equal. apply Z.mod_small. lia.
Qed.

Lemma step_of_any_data_file_name (n : Z) :
  py_int (replace (replace (data_file_name n) "data_step" "") ".pkl" "") = Ok n.
Proof.
  unfold data_file_name.
  rewrite replace_data_step;
    [| apply format_07d_all | simpl; repeat split; discriminate].
  rewrite replace_pkl_tail by apply format_07d_all.
  rewrite append_empty_r. apply py_int_format_07d.
Qed.

Lemma format_07d_inj (n m : Z) : format_07d n = format_07d m -> n = m.
Proof.
  intros Heq. pose proof (py_int_format_07d n) as Hn.
  rewrite Heq, py_int_format_07d in Hn. congruence.
Qed.

Lemma length_append (s t : string) :
  String.length (s +:+ t) = (String.length s + String.length t)%nat.
Proof. induction s as [|c s IH]; [done|]. rewrite append_String. simpl. by rewrite IH. Qed.

Lemma append_inj_r (s s' t : string) : s +:+ t = s' +:+ t -> s = s'.
Proof.
  revert s'. induction s as [|c s IH]; intros [|c' s'] Heq.
  - done.
  - apply (f_equal String.length) in Heq.
    rewrite append_empty_l, length_append in Heq. simpl in Heq. lia.
  - apply (f_equal String.length) in Heq.
    rewrite append_empty_l, length_append in Heq. simpl in Heq. lia.
  - rewrite !append_String in Heq. injection Heq as -> Heq. f_equal. by apply IH.
Qed.

(** X1.  The step is recovered from the name of its data record, for
    every integer step: the parsing of line 233 undoes the naming of
    line 235, so such a name never makes [int] raise. *)
Theorem step_name_round_trip (fs : filesystem) (output_dir : string) (n : Z) :
  exists data_file,
    resolve_data_file fs output_dir (Some n) = Ok (data_file, n) /\
    py_int (replace (replace data_file "data_step" "") ".pkl" "") = Ok n.
Proof.
  exists (data_file_name n). split; [reflexivity|]. apply step_of_any_data_file_name.
Qed.

(** X2.  Two different steps never share a file name: the names of the
    data records are pairwise different, and so are the names of the
    artifacts of any one kind; a data record is never named like a model,
    optimizer or sparse-optimizer file. *)
Theorem step_names_distinct (kind : string) (n m : Z) :
  (data_file_name n = data_file_name m -> n = m) /\
  (artifact_name kind n = artifact_name kind m -> n = m) /\
  data_file_name n <> artifact_name "model" m /\
  data_file_name n <> artifact_name "optimizer" m /\
  data_file_name n <> artifact_name "sparse_optimizer" m.
Proof.
  split; [|split; [|repeat split; discriminate]].
  - intros Heq. pose proof (step_of_any_data_file_name n) as Hn.
    rewrite Heq, step_of_any_data_file_name in Hn. congruence.
  - unfold artifact_name. intros Heq.
    apply String.app_inj, String.app_inj, append_inj_r in Heq.
    by apply format_07d_inj.
Qed.


(** ** The latest data file *)

Lemma sorted_last_is_greatest (l : list string) (f : string) :
  f ∈ l -> (forall g, g ∈ l -> String.leb g f = true) -> last_item (sorted l) = Ok f.
Proof.
  intros Hin Hmax.
  destruct (sorted_last_greatest l) as (m & Hlast & Hm & Hgreatest).
  { intros ->. by apply elem_of_nil in Hin. }
  rewrite Hlast. f_equal. apply String.leb_antisym; auto.
Qed.

Lemma resolve_latest_is (fs : filesystem) (output_dir : string)
    (names : list string) (f : string) :
  os_listdir fs output_dir = Ok names ->
  f ∈ data_files names ->
  (forall g, g ∈ data_files names -> String.leb g f = true) ->
  resolve_data_file fs output_dir None =
    (n ← py_int (replace (replace f "data_step" "") ".pkl" ""); Ok (f, n)).
Proof.
  intros Hlist Hin Hmax. unfold resolve_data_file.
  by rewrite Hlist, bind_Ok, (sorted_last_is_greatest _ f), bind_Ok.
Qed.

(** X3.  Resuming without a step does exactly what resuming at the
    explicit step [n] does, whenever the greatest data file of the
    directory is the record of step [n]: the step parsed from the name is
    not used any further. *)
Theorem latest_is_explicit {R : Type} (train_func : gmap string pyval -> result R)
    (fs : filesystem) (json_data : option (gmap string pyval)) (output_dir : string)
    (kwargs : gmap string pyval) (names : list string) (n : Z) :
  os_listdir fs output_dir = Ok names ->
  data_file_name n ∈ data_files names ->
  (forall g, g ∈ data_files names -> String.leb g (data_file_name n) = true) ->
  _resume_training train_func fs json_data output_dir None kwargs =
  _resume_training train_func fs json_data output_dir (Some n) kwargs.
Proof.
  intros Hlist Hin Hmax. unfold _resume_training.
  rewrite (resolve_latest_is fs output_dir names (data_file_name n)) by done.
  by rewrite step_of_any_data_file_name.
Qed.

Lemma data_files_fs_steps :
  data_files ["optimizer_step0000700.bin"; "optimizer_step0000070.bin";
              "optimizer_step0000007.bin"; "model_step0000700.bin";
              "model_step0000070.bin"; "model_step0000007.bin";
              "data_step0000700.pkl"; "data_step0000070.pkl";
              "data_step0000007.pkl"]
  = ["data_step0000700.pkl"; "data_step0000070.pkl"; "data_step0000007.pkl"].
Proof. reflexivity. Qed.

Lemma latest_is_explicit_witness :
  _resume_training Ok fs_steps None "out" None ∅ =
  _resume_training Ok fs_steps None "out" (Some 700) ∅.
Proof.
  apply (latest_is_explicit Ok fs_steps None "out" ∅
           ["optimizer_step0000700.bin"; "optimizer_step0000070.bin";
            "optimizer_step0000007.bin"; "model_step0000700.bin";
            "model_step0000070.bin"; "model_step0000007.bin";
            "data_step0000700.pkl"; "data_step0000070.pkl";
            "data_step0000007.pkl"] 700 eq_refl).
  - rewrite data_files_fs_steps. apply elem_of_cons. left. reflexivity.
  - rewrite data_files_fs_steps. intros g Hg. rewrite !elem_of_cons in Hg.
    destruct Hg as [-> | [-> | [-> | Hg]]]; [reflexivity..|].
    destruct (proj1 (elem_of_nil _) Hg).
Defined.

(** X4.  A file that passes the filter of line 232, sorts last and does not
    leave an integer literal once ['data_step'] and ['.pkl'] are removed
    makes a resume without step raise [ValueError]; the checkpoints beside
    it are not tried and the training function is not called. *)
Theorem stray_data_file_is_fatal {R : Type} (train_func : gmap string pyval -> result R)
    (fs : filesystem) (json_data : option (gmap string pyval)) (output_dir : string)
    (kwargs : gmap string pyval) (names : list string) (f : string) :
  os_listdir fs output_dir = Ok names ->
  f ∈ data_files names ->
  (forall g, g ∈ data_files names -> String.leb g f = true) ->
  (forall z, py_int (replace (replace f "data_step" "") ".pkl" "") <> Ok z) ->
  _resume_training train_func fs json_data output_dir None kwargs =
  Raise (ValueError (replace (replace f "data_step" "") ".pkl" "")).
Proof.
  intros Hlist Hin Hmax Hbad. apply resume_training_resolve_fails.
  rewrite (resolve_latest_is fs output_dir names f) by done.
  revert Hbad. unfold py_int.
  destruct (match rstrip (lstrip _) with "" => _ | String _ _ => _ end) as [z|].
  - intros Hbad. by destruct (Hbad z).
  - reflexivity.
Qed.

Lemma stray_data_file_is_fatal_witness :
  _resume_training Ok fs_stray None "out" None ∅ = Raise (ValueError "0000700.tmp").
Proof.
  apply (stray_data_file_is_fatal Ok fs_stray None "out" ∅
           ["optimizer_step0000700.bin"; "model_step0000700.bin";
            "data_step0000700.pkl.tmp"; "data_step0000700.pkl"]
           "data_step0000700.pkl.tmp").
  - reflexivity.
  - apply elem_of_cons. left. reflexivity.
  - intros g Hg.
    change (data_files _) with ["data_step0000700.pkl.tmp"; "data_step0000700.pkl"] in Hg.
    rewrite !elem_of_cons in Hg.
    destruct Hg as [-> | [-> | Hg]]; [reflexivity..|].
    destruct (proj1 (elem_of_nil _) Hg).
  - intros z. discriminate.
Defined.

(** ** What a resume reads *)



(** X6.  The arguments are reconstructed exactly when the data file loads
    as a dict that holds a dict under ['args'] and entries ['global_step']
    and ['page_chunks']; nothing else is required, and what is reconstructed
    is always a dict. *)
Theorem restore_args_succeeds_iff (fs : filesystem) (output_dir data_file : string) :
  ((exists args, restore_args fs output_dir data_file = Ok args) <->
   (exists data stored step chunks,
      joblib_load fs (os_path_join output_dir data_file) = Ok (PDict data) /\
      data !! "args" = Some (PDict stored) /\
      data !! "global_step" = Some step /\
      data !! "page_chunks" = Some chunks)) /\
  (forall args, restore_args fs output_dir data_file = Ok args ->
                exists d, args = PDict d).
Proof.
  split; [split|].
  - intros [args Hargs].
    destruct (restore_args_inv fs output_dir data_file args Hargs)
      as (data & stored & step & chunks & Hload & Ha & Hs & Hc & _).
    exists data, stored, step, chunks. repeat (split; [assumption|]). assumption.
  - intros (data & stored & step & chunks & Hload & Ha & Hs & Hc).
    eexists. by apply (restore_args_Ok fs output_dir data_file data stored step chunks).
  - intros args Hargs.
    destruct (restore_args_inv fs output_dir data_file args Hargs)
      as (data & stored & step & chunks & _ & _ & _ & _ & ->).
    by eexists.
Qed.

(** X10.  A data file that holds something else than a dict, or a record
    whose ['args'] entry is not a dict, makes the resume raise [TypeError]
    before the training function is called. *)
Theorem ill_typed_record_raises {R : Type} (train_func : gmap string pyval -> result R)
    (fs : filesystem) (json_data : option (gmap string pyval)) (output_dir : string)
    (global_step : option Z) (kwargs : gmap string pyval)
    (data_file : string) (n : Z) (obj : pyval) :
  resolve_data_file fs output_dir global_step = Ok (data_file, n) ->
  joblib_load fs (os_path_join output_dir data_file) = Ok obj ->
  (forall d, obj <> PDict d) \/
  (exists data stored step,
     obj = PDict data /\ data !! "args" = Some stored /\
     (forall d, stored <> PDict d) /\ data !! "global_step" = Some step) ->
  _resume_training train_func fs json_data output_dir global_step kwargs = Raise TypeError.
Proof.
  intros Hres Hload Hshape.
  eapply resume_training_restore_fails; [exact Hres|].
  unfold restore_args. rewrite Hload, bind_Ok.
  destruct Hshape as [Hobj | (data & stored & step & -> & Hargs & Hstored & Hstep)].
  - destruct obj; try reflexivity. by destruct (Hobj d).
  - unfold getitem. rewrite Hargs, bind_Ok, Hstep, bind_Ok.
    destruct stored; try reflexivity. by destruct (Hstored d).
Qed.

(** ** The sparse-optimizer entry *)

(** X11.  For the data file of step [n] and a complete record, the
    reconstructed [sparse_optimizer_file] is
    [output_dir/sparse_optimizer_step<n>.bin] when a file of the bare name
    [sparse_optimizer_step<n>.bin] exists relative to the working
    directory, and the stored entry, if any, otherwise. *)
Theorem sparse_optimizer_entry (fs : filesystem) (output_dir : string) (n : Z)
    (data stored : gmap string pyval) (step chunks : pyval) :
  joblib_load fs (os_path_join output_dir (data_file_name n)) = Ok (PDict data) ->
  data !! "args" = Some (PDict stored) ->
  data !! "global_step" = Some step ->
  data !! "page_chunks" = Some chunks ->
  exists args : gmap string pyval,
    restore_args fs output_dir (data_file_name n) = Ok (PDict args) /\
    args !! "sparse_optimizer_file" =
      if os_path_exists fs (artifact_name "sparse_optimizer" n)
      then Some (PStr (os_path_join output_dir (artifact_name "sparse_optimizer" n)))
      else stored !! "sparse_optimizer_file".
Proof.
  intros Hload Hargs Hstep Hchunks. eexists. split; [by apply restore_args_Ok|].
  by rewrite restored_sparse_optimizer_file, derived_file_name.
Qed.

Lemma ill_typed_record_raises_witness :
  _resume_training Ok fs_illtyped None "out" (Some 7) ∅ = Raise TypeError.
Proof.
  apply (ill_typed_record_raises Ok fs_illtyped None "out" (Some 7) ∅
           "data_step0000007.pkl" 7 (PList [PInt 7])); [reflexivity..|].
  left. discriminate.
Defined.

Lemma sparse_optimizer_entry_witness :
  exists args : gmap string pyval,
    restore_args fs_sparse_cwd "out" "data_step0000007.pkl" = Ok (PDict args) /\
    args !! "sparse_optimizer_file" = Some (PStr "out/sparse_optimizer_step0000007.bin") /\
    os_path_exists fs_sparse_cwd "out/sparse_optimizer_step0000007.bin" = false.
Proof.
  destruct (sparse_optimizer_entry fs_sparse_cwd "out" 7
              (<["args" := PDict (<["batch_size" := PInt 256]>
                                 (<["model_file" := PNone]> ∅))]>
              (<["global_step" := PInt 7]>
              (<["epoch" := PInt 1]>
              (<["page_chunks" := PList [PInt 3; PInt 4]]> ∅))))
              (<["batch_size" := PInt 256]> (<["model_file" := PNone]> ∅))
              (PInt 7) (PList [PInt 3; PInt 4])
              eq_refl eq_refl eq_refl eq_refl) as (args & Hrec & Hsparse).
  exists args. split; [exact Hrec|]. split; [exact Hsparse | reflexivity].
Defined.

(** ** Overrides from the command line and from the JSON blob *)

Lemma overridden_all_None (kwargs args : gmap string pyval) :
  (forall key value, kwargs !! key = Some value -> value = PNone) ->
  overridden kwargs args = args.
Proof.
  intros Hnone. apply map_eq. intros key. rewrite overridden_lookup.
  destruct (kwargs !! key) as [value|] eqn:Hkey; [|done].
  by rewrite (Hnone key value Hkey).
Qed.

Lemma resume_kwargs_no_options (o : resume_options) (key : string) (value : pyval) :
  batch_size o = None -> gradient_accumulation_steps o = None ->
  learning_rate o = None -> lr_decay o = None ->
  num_train_steps o = None -> save_every o = None ->
  resume_kwargs o !! key = Some value -> value = PNone.
Proof.
  intros H1 H2 H3 H4 H5 H6. unfold resume_kwargs.
  rewrite H1, H2, H3, H4, H5, H6. cbn [option_value].
  rewrite !lookup_insert_Some, lookup_empty.
  intros Hkey. repeat (destruct Hkey as [[_ Hkey] | [_ Hkey]]; [congruence|]).
  discriminate.
Qed.

(** X7.  A resume command given no option and no JSON blob calls the
    training function with exactly the reconstructed arguments. *)
Theorem resume_without_options {R : Type}
    (run_training run_e2e_training : gmap string pyval -> result R)
    (fs : filesystem) (o : resume_options) (data_file : string) (n : Z)
    (args : gmap string pyval) :
  json_data o = None ->
  batch_size o = None -> gradient_accumulation_steps o = None ->
  learning_rate o = None -> lr_decay o = None ->
  num_train_steps o = None -> save_every o = None ->
  resolve_data_file fs (output_dir o) (global_step o) = Ok (data_file, n) ->
  restore_args fs (output_dir o) data_file = Ok (PDict args) ->
  resume_training run_training fs o = run_training args /\
  resume_e2e_training run_e2e_training fs o = run_e2e_training args.
Proof.
  intros Hjson H1 H2 H3 H4 H5 H6 Hres Hrec.
  assert (overridden (resume_kwargs o) args = args) as Hid.
  { apply overridden_all_None. intros key value. by apply resume_kwargs_no_options. }
  unfold resume_training, resume_e2e_training, _resume_training.
  rewrite Hjson, Hres, !bind_Ok, Hrec, !bind_Ok. cbn [update_kwargs].
  rewrite apply_overrides_dict, !bind_Ok, Hid. split; reflexivity.
Qed.

Lemma resume_without_options_witness :
  resume_training Ok fs_steps no_options =
  Ok (<["batch_size" := PInt 256]>
     (<["global_step" := PInt 700]>
     (<["epoch" := PInt 1]>
     (<["page_chunks" := PList [PInt 3; PInt 4]]>
     (<["model_file" := PStr "out/model_step0000700.bin"]>
     (<["optimizer_file" := PStr "out/optimizer_step0000700.bin"]> ∅)))))).
Proof.
  apply (proj1 (resume_without_options Ok Ok fs_steps no_options
                  "data_step0000700.pkl" 700 _
                  eq_refl eq_refl eq_refl eq_refl eq_refl eq_refl eq_refl
                  eq_refl eq_refl)).
Defined.

(** X8.  With a JSON blob the value a key reaches the training function
    with is decided in three levels: a blob entry other than null wins; a
    blob entry that is null hides the command-line option of that name and
    leaves the reconstructed value; without a blob entry the command-line
    option decides, and without that the reconstructed value stands.  The
    blob may name any key, the record-derived ones included. *)
Theorem json_blob_precedence {R : Type} (run_training : gmap string pyval -> result R)
    (fs : filesystem) (o : resume_options) (blob : gmap string pyval)
    (data_file : string) (n : Z) (args : gmap string pyval) :
  json_data o = Some blob ->
  resolve_data_file fs (output_dir o) (global_step o) = Ok (data_file, n) ->
  restore_args fs (output_dir o) data_file = Ok (PDict args) ->
  exists effective : gmap string pyval,
    resume_training run_training fs o = run_training effective /\
    forall key,
      effective !! key =
      match blob !! key with
      | Some value => if is_None value then args !! key else Some value
      | None =>
          match resume_kwargs o !! key with
          | Some value => if is_None value then args !! key else Some value
          | None => args !! key
          end
      end.
Proof.
  intros Hjson Hres Hrec.
  exists (overridden (blob ∪ resume_kwargs o) args). split.
  - unfold resume_training, _resume_training.
    rewrite Hjson, Hres, !bind_Ok, Hrec, !bind_Ok. cbn [update_kwargs].
    by rewrite apply_overrides_dict, !bind_Ok.
  - intros key. rewrite overridden_lookup.
    destruct (blob !! key) as [value|] eqn:Hblob.
    + by rewrite (lookup_union_Some_l _ _ _ _ Hblob).
    + by rewrite lookup_union_r.
Qed.

Lemma json_blob_precedence_witness :
  exists effective : gmap string pyval,
    resume_training Ok fs_steps json_options = Ok effective /\
    effective !! "batch_size" = Some (PInt 256) /\
    effective !! "model_file" = Some (PStr "elsewhere/model.bin").
Proof.
  destruct (json_blob_precedence Ok fs_steps json_options
              (<["batch_size" := PNone]>
               (<["model_file" := PStr "elsewhere/model.bin"]> ∅))
              "data_step0000007.pkl" 7 _ eq_refl eq_refl eq_refl)
    as (effective & Hrun & Hkeys).
  exists effective. split; [exact Hrun|]. split.
  - rewrite Hkeys. reflexivity.
  - rewrite Hkeys. reflexivity.
Defined.

(** X12.  The override loop never removes an argument and never sets one
    to [None]: every key of the arguments is still there afterwards, a
    value that is [None] afterwards was [None] before, and running the loop
    again with the same overrides changes nothing. *)
Theorem overrides_keep_arguments (kwargs args : gmap string pyval) :
  exists effective : gmap string pyval,
    apply_overrides kwargs (PDict args) = Ok (PDict effective) /\
    (forall key, is_Some (args !! key) -> is_Some (effective !! key)) /\
    (forall key, effective !! key = Some PNone -> args !! key = Some PNone) /\
    apply_overrides kwargs (PDict effective) = Ok (PDict effective).
Proof.
  exists (overridden kwargs args). split; [apply apply_overrides_dict|].
  split; [|split].
  - intros key Hkey. rewrite overridden_lookup.
    destruct (kwargs !! key) as [value|]; [|done]. by destruct (is_None value).
  - intros key. rewrite overridden_lookup.
    destruct (kwargs !! key) as [value|]; [|done].
    destruct value; simpl; try done; congruence.
  - rewrite apply_overrides_dict. do 2 f_equal. apply map_eq. intros key.
    rewrite !overridden_lookup.
    destruct (kwargs !! key) as [value|]; [|done]. by destruct (is_None value).
Qed.

(** ** Candidates for the latest data file *)

Lemma contains_unfold (sub s : string) :
  contains sub s =
  String.prefix sub s || match s with "" => false | String _ s' => contains sub s' end.
Proof. by destruct s. Qed.

Lemma contains_append (sub pre rest : string) : contains sub (pre +:+ sub +:+ rest) = true.
Proof.
  induction pre as [|c pre IH].
  - rewrite append_empty_l, contains_unfold, prefix_append. reflexivity.
  - rewrite append_String, contains_unfold, IH. apply orb_true_r.
Qed.

Lemma data_files_elem (names : list string) (f : string) :
  f ∈ data_files names <->
  f ∈ names /\ startswith f "data_" = true /\ contains "step" f = true.
Proof.
  unfold data_files. rewrite !list_elem_of_In, filter_In, andb_true_iff. tauto.
Qed.

(** X9.  Every data record named by the code's pattern that is in the
    directory is a candidate for the latest data file, whatever its step;
    a model, optimizer or sparse-optimizer file never is; and every
    candidate is a directory entry that starts with ['data_'] and contains
    ['step']. *)
Theorem latest_candidates (names : list string) (n : Z) :
  (data_file_name n ∈ names -> data_file_name n ∈ data_files names) /\
  (artifact_name "model" n ∉ data_files names) /\
  (artifact_name "optimizer" n ∉ data_files names) /\
  (artifact_name "sparse_optimizer" n ∉ data_files names) /\
  (forall f, f ∈ data_files names ->
     f ∈ names /\ startswith f "data_" = true /\ contains "step" f = true).
Proof.
  split; [|split; [|split; [|split]]].
  - intros Hin. apply data_files_elem. split; [done|]. split.
    + unfold startswith, data_file_name.
      change "data_step" with ("data_" +:+ "step"). rewrite append_assoc.
      apply prefix_append.
    + unfold data_file_name.
      change "data_step" with ("data_" +:+ "step"). rewrite append_assoc.
      apply contains_append.
  - rewrite data_files_elem. intros (_ & Hstart & _). discriminate.
  - rewrite data_files_elem. intros (_ & Hstart & _). discriminate.
  - rewrite data_files_elem. intros (_ & Hstart & _). discriminate.
  - intros f. apply data_files_elem.
Qed.

(** ** Starting a training run *)

Lemma io_bind_lift_Ok {A B : Type} (a : A) (f : A -> io B) (fs : filesystem) :
  io_bind (io_lift (Ok a)) f fs = f a fs.
Proof. reflexivity. Qed.

Lemma io_bind_lift_Raise {A B : Type} (e : exn) (f : A -> io B) (fs : filesystem) :
  io_bind (io_lift (Raise e)) f fs = (fs, Raise e).
Proof. reflexivity. Qed.

(** The keyword arguments of the training function, in closed form. *)
Lemma run_training_runs {R : Type} (train_func : gmap string pyval -> io R)
    (os_makedirs : string -> io unit)
    (json_data : option (gmap string pyval)) (kwargs : gmap string pyval)
    (run_name base_output_dir base_log_dir : string) (fs fs1 fs2 : filesystem) :
  update_kwargs json_data kwargs !! "run_name" = Some (PStr run_name) ->
  update_kwargs json_data kwargs !! "base_output_dir" = Some (PStr base_output_dir) ->
  update_kwargs json_data kwargs !! "base_log_dir" = Some (PStr base_log_dir) ->
  os_makedirs (os_path_join base_output_dir run_name) fs = (fs1, Ok tt) ->
  os_makedirs (os_path_join base_log_dir run_name) fs1 = (fs2, Ok tt) ->
  _run_training train_func os_makedirs json_data kwargs fs =
  train_func
    (<["log_dir" := PStr (os_path_join base_log_dir run_name)]>
     (delete "base_log_dir"
     (<["output_dir" := PStr (os_path_join base_output_dir run_name)]>
     (delete "base_output_dir"
     (delete "run_name" (update_kwargs json_data kwargs)))))) fs2.
Proof.
  intros Hname Hout Hlog Hmk1 Hmk2. unfold _run_training, dict_pop.
  rewrite Hname, io_bind_lift_Ok.
  rewrite lookup_delete_ne, Hout, io_bind_lift_Ok by done.
  cbn [path_join_values]. rewrite io_bind_lift_Ok.
  unfold io_bind at 1. rewrite Hmk1.
  rewrite lookup_insert_ne, !lookup_delete_ne, Hlog, io_bind_lift_Ok by done.
  cbn [path_join_values]. rewrite io_bind_lift_Ok.
  unfold io_bind. by rewrite Hmk2.
Qed.

(** X13.  When the options, updated with the JSON blob, hold strings under
    [run_name], [base_output_dir] and [base_log_dir] and both directories
    can be made, the training function is called on the file system that
    holds them, with [output_dir] and [log_dir] set to the base directories
    joined with the run name, without the three keys they were computed
    from, and with every other option as it was. *)
Theorem run_training_arguments {R : Type} (train_func : gmap string pyval -> io R)
    (os_makedirs : string -> io unit)
    (json_data : option (gmap string pyval)) (kwargs : gmap string pyval)
    (run_name base_output_dir base_log_dir : string) (fs fs1 fs2 : filesystem) :
  update_kwargs json_data kwargs !! "run_name" = Some (PStr run_name) ->
  update_kwargs json_data kwargs !! "base_output_dir" = Some (PStr base_output_dir) ->
  update_kwargs json_data kwargs !! "base_log_dir" = Some (PStr base_log_dir) ->
  os_makedirs (os_path_join base_output_dir run_name) fs = (fs1, Ok tt) ->
  os_makedirs (os_path_join base_log_dir run_name) fs1 = (fs2, Ok tt) ->
  exists args : gmap string pyval,
    _run_training train_func os_makedirs json_data kwargs fs = train_func args fs2 /\
    args !! "output_dir" = Some (PStr (os_path_join base_output_dir run_name)) /\
    args !! "log_dir" = Some (PStr (os_path_join base_log_dir run_name)) /\
    args !! "run_name" = None /\
    args !! "base_output_dir" = None /\
    args !! "base_log_dir" = None /\
    (forall key, key ∉ run_keys -> args !! key = update_kwargs json_data kwargs !! key).
Proof.
  intros Hname Hout Hlog Hmk1 Hmk2. eexists.
  split; [by eapply run_training_runs|].
  split; [by rewrite lookup_insert_ne, lookup_delete_ne, lookup_insert_eq|].
  split; [by rewrite lookup_insert_eq|].
  split; [by rewrite lookup_insert_ne, lookup_delete_ne, lookup_insert_ne,
             lookup_delete_ne, lookup_delete_eq|].
  split; [by rewrite lookup_insert_ne, lookup_delete_ne, lookup_insert_ne,
             lookup_delete_eq|].
  split; [by rewrite lookup_insert_ne, lookup_delete_eq|].
  intros key Hkey. unfold run_keys in Hkey.
  rewrite !not_elem_of_cons in Hkey. destruct Hkey as (? & ? & ? & ? & ? & _).
  by rewrite lookup_insert_ne, lookup_delete_ne, lookup_insert_ne,
             !lookup_delete_ne.
Qed.

Lemma run_training_arguments_witness :
  exists args : gmap string pyval,
    _run_training report_arguments makedirs_free None run_options ∅ =
      (<["log/job1" := Dir]> (<["out/job1" := Dir]> ∅), Ok args) /\
    args !! "output_dir" = Some (PStr "out/job1") /\
    args !! "log_dir" = Some (PStr "log/job1") /\
    args !! "run_name" = None /\
    args !! "batch_size" = Some (PInt 256).
Proof.
  destruct (run_training_arguments report_arguments makedirs_free None run_options
              "job1" "out" "log" ∅ (<["out/job1" := Dir]> ∅)
              (<["log/job1" := Dir]> (<["out/job1" := Dir]> ∅))
              eq_refl eq_refl eq_refl eq_refl eq_refl)
    as (args & Hrun & Hout & Hlog & Hname & _ & _ & Hother).
  exists args. split; [exact Hrun|]. repeat (split; [assumption|]).
  rewrite Hother; [reflexivity|].
  unfold run_keys. rewrite !not_elem_of_cons. repeat (split; [discriminate|]).
  apply not_elem_of_nil.
Defined.

(** X14.  In a new run a JSON entry replaces the option of its name
    whatever its value, null included, and an option the blob does not
    name passes unchanged; an [output_dir] or [log_dir] entry of the blob
    or of the options is overwritten by the computed directory. *)
Theorem run_training_json {R : Type} (train_func : gmap string pyval -> io R)
    (os_makedirs : string -> io unit)
    (blob kwargs : gmap string pyval)
    (run_name base_output_dir base_log_dir : string) (fs fs1 fs2 : filesystem) :
  (blob ∪ kwargs) !! "run_name" = Some (PStr run_name) ->
  (blob ∪ kwargs) !! "base_output_dir" = Some (PStr base_output_dir) ->
  (blob ∪ kwargs) !! "base_log_dir" = Some (PStr base_log_dir) ->
  os_makedirs (os_path_join base_output_dir run_name) fs = (fs1, Ok tt) ->
  os_makedirs (os_path_join base_log_dir run_name) fs1 = (fs2, Ok tt) ->
  exists args : gmap string pyval,
    _run_training train_func os_makedirs (Some blob) kwargs fs = train_func args fs2 /\
    (forall key value, key ∉ run_keys -> blob !! key = Some value ->
                       args !! key = Some value) /\
    (forall key, key ∉ run_keys -> blob !! key = None -> args !! key = kwargs !! key) /\
    args !! "output_dir" = Some (PStr (os_path_join base_output_dir run_name)) /\
    args !! "log_dir" = Some (PStr (os_path_join base_log_dir run_name)).
Proof.
  intros Hname Hout Hlog Hmk1 Hmk2. eexists.
  split; [by apply (run_training_runs train_func os_makedirs (Some blob) kwargs
                      run_name base_output_dir base_log_dir fs fs1 fs2)|].
  cbn [update_kwargs].
  assert (forall key, key ∉ run_keys ->
            <["log_dir" := PStr (os_path_join base_log_dir run_name)]>
              (delete "base_log_dir"
              (<["output_dir" := PStr (os_path_join base_output_dir run_name)]>
              (delete "base_output_dir" (delete "run_name" (blob ∪ kwargs))))) !! key =
            (blob ∪ kwargs) !! key) as Hother.
  { intros key Hkey. unfold run_keys in Hkey.
    rewrite !not_elem_of_cons in Hkey. destruct Hkey as (? & ? & ? & ? & ? & _).
    by rewrite lookup_insert_ne, lookup_delete_ne, lookup_insert_ne,
               !lookup_delete_ne. }
  split; [|split; [|split]].
  - intros key value Hkey Hblob. rewrite Hother by done.
    by apply lookup_union_Some_l.
  - intros key Hkey Hblob. rewrite Hother by done. by apply lookup_union_r.
  - by rewrite lookup_insert_ne, lookup_delete_ne, lookup_insert_eq.
  - by rewrite lookup_insert_eq.
Qed.

Lemma run_training_json_witness :
  exists args : gmap string pyval,
    _run_training report_arguments makedirs_free (Some run_blob) run_options ∅ =
      (<["log/job1" := Dir]> (<["out/job1" := Dir]> ∅), Ok args) /\
    args !! "batch_size" = Some PNone /\
    args !! "model_file" = Some PNone /\
    args !! "output_dir" = Some (PStr "out/job1").
Proof.
  destruct (run_training_json report_arguments makedirs_free run_blob
              run_options "job1" "out" "log" ∅ (<["out/job1" := Dir]> ∅)
              (<["log/job1" := Dir]> (<["out/job1" := Dir]> ∅))
              eq_refl eq_refl eq_refl eq_refl eq_refl)
    as (args & Hrun & Hblob & Hopt & Hout & _).
  assert (forall key : string, key = "batch_size" \/ key = "model_file" -> key ∉ run_keys)
    as Hkeys.
  { intros key Hkey. unfold run_keys. rewrite !not_elem_of_cons.
    destruct Hkey as [-> | ->]; repeat (split; [discriminate|]); apply not_elem_of_nil. }
  exists args. split; [exact Hrun|]. split; [|split; [|exact Hout]].
  - apply Hblob; [apply Hkeys; by left | reflexivity].
  - rewrite Hopt; [reflexivity | apply Hkeys; by right | reflexivity].
Defined.

(** X15.  A run whose options lack [run_name] or [base_output_dir] raises
    [KeyError] for that key, and one where either is not a string raises
    [TypeError]; in each case no directory has been made and the training
    function is not called. *)
Theorem run_training_fails_early {R : Type} (train_func : gmap string pyval -> io R)
    (os_makedirs : string -> io unit)
    (json_data : option (gmap string pyval)) (kwargs : gmap string pyval)
    (fs : filesystem) :
  let options := update_kwargs json_data kwargs in
  (options !! "run_name" = None ->
   _run_training train_func os_makedirs json_data kwargs fs =
     (fs, Raise (KeyError "run_name"))) /\
  (is_Some (options !! "run_name") -> options !! "base_output_dir" = None ->
   _run_training train_func os_makedirs json_data kwargs fs =
     (fs, Raise (KeyError "base_output_dir"))) /\
  (forall run_name base,
     options !! "run_name" = Some run_name ->
     options !! "base_output_dir" = Some base ->
     (forall s, run_name <> PStr s) \/ (forall s, base <> PStr s) ->
     _run_training train_func os_makedirs json_data kwargs fs = (fs, Raise TypeError)).
Proof.
  intros options. unfold _run_training, dict_pop. fold options.
  split; [|split].
  - intros Hname. by rewrite Hname.
  - intros [run_name Hname] Hout.
    rewrite Hname, io_bind_lift_Ok. by rewrite lookup_delete_ne, Hout by done.
  - intros run_name base Hname Hout Hstr.
    rewrite Hname, io_bind_lift_Ok.
    rewrite lookup_delete_ne, Hout, io_bind_lift_Ok by done.
    assert (path_join_values base run_name = Raise TypeError) as ->; [|done].
    destruct Hstr as [Hstr | Hstr].
    + destruct base; try done. destruct run_name; try done. by destruct (Hstr s0).
    + destruct base; try done. by destruct (Hstr s).
Qed.

Lemma run_training_fails_early_witness :
  _run_training report_arguments makedirs_free None (delete "run_name" run_options) ∅ =
    (∅, Raise (KeyError "run_name")) /\
  _run_training report_arguments makedirs_free (Some (<["run_name" := PInt 1]> ∅))
    run_options ∅ = (∅, Raise TypeError).
Proof.
  split.
  - apply (proj1 (run_training_fails_early report_arguments makedirs_free None
                    (delete "run_name" run_options) ∅)).
    reflexivity.
  - apply (proj2 (proj2 (run_training_fails_early report_arguments makedirs_free
                           (Some (<["run_name" := PInt 1]> ∅)) run_options ∅))
             (PInt 1) (PStr "out")); [reflexivity | reflexivity |].
    left. discriminate.
Defined.

Example parents_ex1 : parents "out/run/x.bin" = ["out"; "out/run"].
Proof. reflexivity. Qed.
Example parents_ex2 : parents "/srv/out" = ["/srv"].
Proof. reflexivity. Qed.
Example path_clear_ex1 : path_clear fs_log_blocked "log/job1" = false.
Proof. reflexivity. Qed.
Example path_clear_ex2 : path_clear fs_log_blocked "out/job1" = true.
Proof. reflexivity. Qed.

Lemma makedirs_leaf_made (name : string) (fs fs' : filesystem) :
  makedirs_leaf name fs = (fs', Ok tt) -> fs' !! name = Some Dir.
Proof.
  unfold makedirs_leaf. destruct (path_clear fs name); [|discriminate].
  intros [= <-]. apply lookup_insert_eq.
Qed.

Lemma makedirs_leaf_keeps (name : string) (fs fs' : filesystem) (r : result unit)
    (path : string) :
  makedirs_leaf name fs = (fs', r) -> fs !! path = Some Dir -> fs' !! path = Some Dir.
Proof.
  unfold makedirs_leaf. destruct (path_clear fs name); intros [= <- _] Hdir; [|exact Hdir].
  destruct (decide (name = path)) as [-> | Hne].
  - apply lookup_insert_eq.
  - by rewrite lookup_insert_ne.
Qed.

(** X16.  When the output directory cannot be made the error of
    [os.makedirs] is raised, the log directory is not attempted and the
    training function is not called.  When the output directory is made and
    the log directory cannot be, the error is raised and the output
    directory is there: a successful [os.makedirs] leaves its directory in
    place and no call of it removes a directory. *)
Theorem run_training_makedirs_fails {R : Type} (train_func : gmap string pyval -> io R)
    (os_makedirs : string -> io unit)
    (json_data : option (gmap string pyval)) (kwargs : gmap string pyval)
    (run_name base_output_dir base_log_dir : string) (fs fs1 fs2 : filesystem)
    (e : exn) :
  (forall name fs fs', os_makedirs name fs = (fs', Ok tt) -> fs' !! name = Some Dir) ->
  (forall name fs fs' r path,
     os_makedirs name fs = (fs', r) -> fs !! path = Some Dir -> fs' !! path = Some Dir) ->
  update_kwargs json_data kwargs !! "run_name" = Some (PStr run_name) ->
  update_kwargs json_data kwargs !! "base_output_dir" = Some (PStr base_output_dir) ->
  (os_makedirs (os_path_join base_output_dir run_name) fs = (fs1, Raise e) ->
   _run_training train_func os_makedirs json_data kwargs fs = (fs1, Raise e)) /\
  (os_makedirs (os_path_join base_output_dir run_name) fs = (fs1, Ok tt) ->
   update_kwargs json_data kwargs !! "base_log_dir" = Some (PStr base_log_dir) ->
   os_makedirs (os_path_join base_log_dir run_name) fs1 = (fs2, Raise e) ->
   _run_training train_func os_makedirs json_data kwargs fs = (fs2, Raise e) /\
   fs2 !! os_path_join base_output_dir run_name = Some Dir).
Proof.
  intros Hmade Hkeep Hname Hout. split.
  - intros Hmk1. unfold _run_training, dict_pop.
    rewrite Hname, io_bind_lift_Ok.
    rewrite lookup_delete_ne, Hout, io_bind_lift_Ok by done.
    cbn [path_join_values]. rewrite io_bind_lift_Ok.
    unfold io_bind at 1. by rewrite Hmk1.
  - intros Hmk1 Hlog Hmk2. split.
    + unfold _run_training, dict_pop.
      rewrite Hname, io_bind_lift_Ok.
      rewrite lookup_delete_ne, Hout, io_bind_lift_Ok by done.
      cbn [path_join_values]. rewrite io_bind_lift_Ok.
      unfold io_bind at 1. rewrite Hmk1.
      rewrite lookup_insert_ne, !lookup_delete_ne, Hlog, io_bind_lift_Ok by done.
      cbn [path_join_values]. rewrite io_bind_lift_Ok.
      unfold io_bind. by rewrite Hmk2.
    + eapply Hkeep; [exact Hmk2|]. eapply Hmade. exact Hmk1.
Qed.

Lemma run_training_makedirs_fails_witness :
  _run_training report_arguments makedirs_leaf None run_options_under_log fs_log_blocked =
    (fs_log_blocked, Raise (NotADirectoryError "log/job1")) /\
  _run_training report_arguments makedirs_leaf None run_options fs_log_blocked =
    (fs_log_blocked_after, Raise (NotADirectoryError "log/job1")) /\
  fs_log_blocked_after !! "out/job1" = Some Dir.
Proof.
  split.
  - apply (proj1 (run_training_makedirs_fails report_arguments makedirs_leaf None
                    run_options_under_log "job1" "log" "log"
                    fs_log_blocked fs_log_blocked fs_log_blocked
                    (NotADirectoryError "log/job1")
                    makedirs_leaf_made makedirs_leaf_keeps eq_refl eq_refl)).
    reflexivity.
  - apply (proj2 (run_training_makedirs_fails report_arguments makedirs_leaf None
                    run_options "job1" "out" "log" fs_log_blocked
                    fs_log_blocked_after fs_log_blocked_after
                    (NotADirectoryError "log/job1")
                    makedirs_leaf_made makedirs_leaf_keeps eq_refl eq_refl));
      reflexivity.
Defined.

(** ** The white list of [build_entity_vocab] *)

Lemma rstrip_all_space (w : string) :
  str_all (fun c => is_space c = true) w -> rstrip w = "".
Proof.
  induction w as [|c w IH]; [done|]. intros [Hc Hw]. simpl.
  by rewrite IH, Hc.
Qed.

Lemma rstrip_cons (c : ascii) (s : string) :
  rstrip (String c s) = "" \/ rstrip (String c s) = String c (rstrip s).
Proof.
  simpl. destruct (rstrip s); [|by right].
  destruct (is_space c); [by left | by right].
Qed.

(** What [rstrip] removes is whitespace at the end. *)
Lemma rstrip_split (s : string) :
  exists w, s = rstrip s +:+ w /\ str_all (fun c => is_space c = true) w.
Proof.
  induction s as [|c s (w & Hs & Hw)]; [by exists ""|].
  simpl. destruct (rstrip s) as [|d r] eqn:Hr.
  - destruct (is_space c) eqn:Hc.
    + exists (String c s). split; [done|]. split; [done|].
      rewrite Hs, append_empty_l. exact Hw.
    + exists w. rewrite append_String. by rewrite <- Hs.
  - exists w. rewrite append_String. by rewrite <- Hs.
Qed.

(** What [rstrip] leaves does not end in whitespace. *)
Lemma rstrip_last (s r : string) (c : ascii) :
  rstrip s = r +:+ String c "" -> is_space c = false.
Proof.
  revert r. induction s as [|a s IH]; intros r Heq.
  - by destruct r.
  - simpl in Heq. destruct (rstrip s) as [|d t] eqn:Hr.
    + destruct (is_space a) eqn:Ha; [by destruct r|].
      destruct r as [|x r].
      * rewrite append_empty_l in Heq. congruence.
      * rewrite append_String in Heq. injection Heq as _ Heq. by destruct r.
    + destruct r as [|x r].
      * rewrite append_empty_l in Heq. discriminate.
      * rewrite append_String in Heq. injection Heq as _ Heq. by eapply IH.
Qed.

Lemma rstrip_keeps (P : ascii -> Prop) (body w : string) :
  str_all P body -> str_all (fun c => is_space c = true) w ->
  str_all P (rstrip (body +:+ w)).
Proof.
  intros Hbody Hw. induction body as [|c body IH].
  - rewrite append_empty_l, rstrip_all_space; done.
  - destruct Hbody as [Hc Hbody]. rewrite append_String.
    destruct (rstrip_cons c (body +:+ w)) as [-> | ->]; [done|].
    split; [done | by apply IH].
Qed.

(** A line of a file: text without newline, ended by one newline or, for
    the last line, by nothing. *)
Lemma file_lines_shape (content : string) :
  Forall (fun line =>
            exists body w,
              line = body +:+ w /\ str_all (fun c => c <> "010"%char) body /\
              (w = String "010" "" \/ w = ""))
         (file_lines content).
Proof.
  induction content as [|c rest IH]; [constructor|]. simpl.
  destruct (Ascii.eqb_spec c "010") as [-> | Hc].
  - constructor; [|exact IH]. exists "", (String "010" ""). split; [done|]. split; [done|].
    by left.
  - destruct (file_lines rest) as [|line lines].
    + constructor; [|constructor]. exists (String c ""), "". repeat split; try done.
      by right.
    + inversion IH as [|? ? (body & w & -> & Hbody & Hw) Hlines]; subst.
      constructor; [|exact Hlines]. exists (String c body), w.
      split; [by rewrite append_String|]. split; [by split|]. exact Hw.
Qed.

Lemma white_list_entries_unfold (white_list : list string) :
  white_list_entries white_list = map rstrip (flat_map file_lines white_list).
Proof.
  unfold white_list_entries. induction white_list as [|f fs IH]; [done|].
  simpl. by rewrite IH, map_app.
Qed.

Lemma rstrip_str_all (P : ascii -> Prop) (s : string) :
  str_all P s -> str_all P (rstrip s).
Proof.
  intros Hs. destruct (rstrip_split s) as (w & Heq & _).
  rewrite Heq in Hs. by apply str_all_append in Hs as [? _].
Qed.

Lemma file_lines_str_all (P : ascii -> Prop) (content : string) :
  str_all P content -> Forall (str_all P) (file_lines content).
Proof.
  induction content as [|c rest IH]; [constructor|]. intros [Hc Hrest]. simpl.
  specialize (IH Hrest). destruct (Ascii.eqb c "010").
  - constructor; [by split | exact IH].
  - destruct (file_lines rest) as [|line lines].
    + constructor; [by split | constructor].
    + inversion IH; subst. constructor; [by split | assumption].
Qed.

(** X17.  For white-list files of ASCII text, where the whitespace
    [line.rstrip()] removes is the ASCII one, the white list has one entry
    for every line of every file, in the order of the files and of their
    lines; each entry is its line without the whitespace at its end, so
    that leading and inner whitespace stays, no entry ends in whitespace,
    and the entries are ASCII text again. *)
Theorem white_list_entries_lines (white_list : list string) :
  Forall (str_all is_ascii) white_list ->
  Forall2 (fun line entry =>
             (exists w, line = entry +:+ w /\ str_all (fun c => is_space c = true) w) /\
             (forall r c, entry = r +:+ String c "" -> is_space c = false))
          (flat_map file_lines white_list) (white_list_entries white_list) /\
  length (white_list_entries white_list) = length (flat_map file_lines white_list) /\
  Forall (str_all is_ascii) (white_list_entries white_list).
Proof.
  intros Hascii. split; [|split].
  - rewrite white_list_entries_unfold.
    induction (flat_map file_lines white_list) as [|line lines IH]; [constructor|].
    simpl. constructor; [|exact IH]. split.
    + apply rstrip_split.
    + intros r c. apply rstrip_last.
  - rewrite white_list_entries_unfold. apply length_map.
  - unfold white_list_entries. apply Forall_flat_map.
    eapply Forall_impl; [exact Hascii|]. intros f Hf. cbn beta.
    apply List.Forall_map. eapply Forall_impl; [by apply file_lines_str_all|].
    intros line. apply rstrip_str_all.
Qed.

Lemma white_list_entries_lines_witness :
  Forall2 (fun line entry =>
             (exists w, line = entry +:+ w /\ str_all (fun c => is_space c = true) w) /\
             (forall r c, entry = r +:+ String c "" -> is_space c = false))
          (flat_map file_lines [sample_white_list])
          (white_list_entries [sample_white_list]) /\
  length (white_list_entries [sample_white_list]) =
    length (flat_map file_lines [sample_white_list]) /\
  Forall (str_all is_ascii) (white_list_entries [sample_white_list]).
Proof.
  apply (white_list_entries_lines [sample_white_list]).
  constructor; [|constructor]. vm_compute. repeat split; reflexivity.
Defined.

(** X18.  No entry of the white list holds a newline, and a line of
    nothing but whitespace, a blank line included, gives the empty entry:
    it is not dropped from the white list. *)
Theorem white_list_entries_newline_free (white_list : list string) :
  Forall (str_all (fun c => c <> "010"%char)) (white_list_entries white_list) /\
  (forall line,
     line ∈ flat_map file_lines white_list ->
     str_all (fun c => is_space c = true) line ->
     "" ∈ white_list_entries white_list).
Proof.
  split.
  - unfold white_list_entries. apply Forall_flat_map, Forall_forall.
    intros f _. apply List.Forall_map.
    eapply Forall_impl; [apply file_lines_shape|].
    intros line (body & w & -> & Hbody & Hw). cbn beta.
    apply rstrip_keeps; [done|]. destruct Hw as [-> | ->]; simpl; auto.
  - intros line Hin Hblank. rewrite white_list_entries_unfold.
    rewrite <- (rstrip_all_space line Hblank). by apply list_elem_of_fmap_2.
Qed.

Lemma white_list_entries_newline_free_witness :
  white_list_entries [sample_white_list] = ["Paris"; ""; " Rome"] /\
  "" ∈ white_list_entries [sample_white_list].
Proof.
  split; [reflexivity|].
  apply (proj2 (white_list_entries_newline_free [sample_white_list])
           (String "010" "")).
  - apply elem_of_cons. right. apply elem_of_cons. left. reflexivity.
  - simpl. auto.
Defined.

(** ** The order of the directory listing *)

(** X19.  The data file chosen on line 232 does not depend on the order in
    which [os.listdir] returns the entries: two listings of the same
    entries give the same file, or both give [IndexError]. *)
Theorem latest_ignores_listing_order (names names' : list string) :
  names ≡ₚ names' ->
  last_item (sorted (data_files names)) = last_item (sorted (data_files names')).
Proof.
  intros Hperm.
  assert (forall f, f ∈ data_files names <-> f ∈ data_files names') as Hsame.
  { intros f. rewrite !data_files_elem. by rewrite Hperm. }
  destruct (data_files names) as [|f l] eqn:Hfiles.
  - destruct (data_files names') as [|g l']; [reflexivity|].
    destruct (proj1 (elem_of_nil g)). apply Hsame, elem_of_cons. by left.
  - destruct (sorted_last_greatest (f :: l)) as (m & Hlast & Hin & Hmax); [done|].
    rewrite Hlast. symmetry. apply sorted_last_is_greatest.
    + by apply Hsame.
    + intros g Hg. by apply Hmax, Hsame.
Qed.

Lemma latest_ignores_listing_order_witness :
  last_item (sorted (data_files ["data_step0000007.pkl"; "data_step0000700.pkl"])) =
  last_item (sorted (data_files ["data_step0000700.pkl"; "data_step0000007.pkl"])).
Proof.
  apply latest_ignores_listing_order. apply perm_swap.
Defined.
